(** * PowerToys.Update: the two-stage update handoff

    A shallow embedding of [src/Update/PowerToys.Update.cpp] and the
    properties of its stage orchestration.

    The program talks to the operating system all the time (file system,
    window registry, process launches, the MSI service, the persisted update
    state).  It is embedded as a state-and-outcome monad over a [World]:
    the persisted [UpdateState], the regular files on disk, the clock and
    the chronological trace of the calls the program has made so far.  What
    the operating system and the external collaborators answer is read from
    an [Env], a record of oracles. *)

From Stdlib Require Import ZArith NArith List String Ascii Bool Lia.
From stdpp Require Import base decidable numbers option list.

Set Default Proof Using "Type".

(** ** Wide strings *)

(** [wchar_t] is a 16-bit code unit; no arithmetic of the program can leave
    that range, so a code unit is an [N]. *)
Definition wchar_t : Type := N.
Abbreviation wstring := (list wchar_t).

(** The wide literal [L"..."]. *)
Fixpoint L (s : string) : wstring :=
  match s with
  | EmptyString => []
  | String c s' => N_of_ascii c :: L s'
  end.

(** The double quote character of a wide literal (code unit 34). *)
Definition dquote : wstring := [34%N].

(** [::towlower] of the C runtime.  The program never calls [setlocale], so
    the "C" locale applies: only [A]..[Z] are mapped. *)
Definition towlower (c : wchar_t) : wchar_t :=
  if ((65 <=? c) && (c <=? 90))%N then (c + 32)%N else c.

(** [std::transform(begin(s), end(s), begin(s), ::towlower)]. *)
Definition transform_towlower (s : wstring) : wstring := map towlower s.

(** [std::wstring::ends_with]. *)
Definition ends_with (s x : wstring) : bool :=
  (length x <=? length s)%nat && bool_decide (drop (length s - length x) s = x).

(** [c_str()] / [data()] handed to an API that reads a NUL-terminated string:
    the characters up to the first NUL. *)
Fixpoint c_str (s : wstring) : wstring :=
  match s with
  | [] => []
  | c :: s' => if (c =? 0)%N then [] else c :: c_str s'
  end.

(** ** Persisted update state *)

Definition time_t : Type := Z.

Module UpdateState.

(** Modelled from the spec: the declaration of [UpdateState]
    (common/updating/updateState.h) is not part of the sources at hand.
    The spec gives a record of a discrete status, the downloaded
    installer's file name and the time of the last check; the program
    uses exactly these three members. *)
Inductive State : Type :=
| upToDate
| readyToDownload
| errorDownloading
| readyToInstall.

(** Modelled from the spec: the members of [UpdateState] (same header):
    the status, the downloaded installer's file name (empty when there is
    none) and the optional time of the last check. *)
Record t : Type := mk {
  state : State;
  downloadedInstallerFilename : wstring;
  githubUpdateLastCheckedDate : option time_t
}.

(** The value-initialised record, [UpdateState{}]. *)
Definition default : t :=
  {| state := upToDate;
     downloadedInstallerFilename := [];
     githubUpdateLastCheckedDate := None |}.

Definition set_state (v : State) (s : t) : t :=
  {| state := v;
     downloadedInstallerFilename := downloadedInstallerFilename s;
     githubUpdateLastCheckedDate := githubUpdateLastCheckedDate s |}.

Definition set_downloadedInstallerFilename (v : wstring) (s : t) : t :=
  {| state := state s;
     downloadedInstallerFilename := v;
     githubUpdateLastCheckedDate := githubUpdateLastCheckedDate s |}.

Definition emplace_githubUpdateLastCheckedDate (v : time_t) (s : t) : t :=
  {| state := state s;
     downloadedInstallerFilename := downloadedInstallerFilename s;
     githubUpdateLastCheckedDate := Some v |}.

#[global] Instance State_eq_dec : EqDecision State.
Proof. solve_decision. Defined.

(** The data-model invariant of the spec: the file name is populated
    exactly when the status is [readyToInstall]. *)
Definition filename_invariant (s : t) : Prop :=
  downloadedInstallerFilename s ≠ [] ↔ state s = readyToInstall.

End UpdateState.

(** ** Windows API data *)

Definition HWND : Type := Z.

Record SHELLEXECUTEINFOW : Type := {
  fMask : Z;
  lpFile : wstring;
  lpParameters : wstring;
  nShow : Z
}.

#[global] Instance SHELLEXECUTEINFOW_eq_dec : EqDecision SHELLEXECUTEINFOW.
Proof. solve_decision. Defined.

Definition SEE_MASK_NOCLOSEPROCESS : Z := 0x40.
Definition SEE_MASK_NOASYNC : Z := 0x100.
Definition SEE_MASK_FLAG_NO_UI : Z := 0x400.
Definition SEE_MASK_NO_CONSOLE : Z := 0x8000.
Definition SW_SHOWNORMAL : Z := 1.
Definition WM_CLOSE : Z := 0x10.
Definition ERROR_SUCCESS : Z := 0.
Definition INSTALLUILEVEL_NONE : Z := 2.

(** ** External collaborators *)

(** The download descriptor is opaque to this program: it is only handed
    from the metadata query to the download operation. *)
Inductive new_version_download_info : Type :=
| DownloadInfo (descriptor : wstring).

(** [std::variant<new_version_download_info, version_up_to_date>]. *)
Inductive github_version_info : Type :=
| new_version (info : new_version_download_info)
| version_up_to_date.

(** The constants of [namespace cmdArg] (runner/UpdateUtils.h); their
    literal values are not part of the sources at hand, so the program is
    embedded over an arbitrary choice of them. *)
Record cmdArg : Type := {
  UPDATE_NOW_LAUNCH_STAGE1 : wstring;
  UPDATE_NOW_LAUNCH_STAGE2 : wstring;
  UPDATE_STAGE2_RESTART_PT : wstring;
  UPDATE_STAGE2_DONT_START_PT : wstring;
  UPDATE_REPORT_SUCCESS : wstring
}.

(** What the operating system and the collaborators answer. *)
Record Env : Type := {
  (** [get_github_version_info_async().get()]: an error text or the info. *)
  get_github_version_info_async : wstring + github_version_info;
  (** [download_new_version(info).get()]: the local path of the installer. *)
  download_new_version : new_version_download_info → option wstring;
  (** whether [fs::copy_file] sets its [error_code]. *)
  copy_file_error : wstring → wstring → bool;
  (** whether [fs::remove] sets its [error_code]. *)
  remove_error : wstring → bool;
  (** [FindWindowW(class, nullptr)]: the window, or [None] for [nullptr]. *)
  FindWindowW : wstring → option HWND;
  (** [ShellExecuteExW(&sei) == TRUE]. *)
  ShellExecuteExW : SHELLEXECUTEINFOW → bool;
  (** the return code of [MsiInstallProductW(szPackagePath,
      szCommandLine)]; [None] is a null command line. *)
  MsiInstallProductW : wstring → option wstring → Z;
  (** the exit code of the process launched from [sei], as
      [GetExitCodeProcess] stores it once [WaitForSingleObject] has
      returned; [None] when that process never exits. *)
  GetExitCodeProcess : SHELLEXECUTEINFOW → option Z;
  temp_directory_path : wstring;
  get_module_filename : wstring;
  get_module_folderpath : wstring;
  get_pending_updates_path : wstring;
  (** [operator/] of [std::filesystem::path]. *)
  path_append : wstring → wstring → wstring
}.

(** ** Calls, worlds and the monad *)

Inductive LogMessage : Type :=
| CouldntObtainGithubVersionInfo (error : wstring)
| NoUpdateWasAvailable
| CouldntDownloadNewInstaller
| CouldntFindDownloadedInstaller (installer : wstring)
| UpdateStateWasInvalid.

(** The calls that leave the process, in the order they are made.  The
    last one, [MsiSetInternalUI], is the call by which a process chooses
    the user-interface level of the installs it starts; this program has
    no such call, and the event is there to say so. *)
Inductive Event : Type :=
| EGetGithubVersionInfo
| EDownloadNewVersion (info : new_version_download_info)
| ELoggerInit
| ELoggerError (m : LogMessage)
| ECopyFile (from to : wstring)
| ERemove (p : wstring)
| ESendMessageW (hwnd : HWND) (msg : Z)
| EShellExecuteExW (sei : SHELLEXECUTEINFOW)
| EMsiInstallProductW (szPackagePath : wstring)
    (szCommandLine : option wstring)
| EWaitForSingleObject
| ECloseHandle
| EStore (new : UpdateState.t)
| EMsiSetInternalUI (dwUILevel : Z).

(** The world a run acts on: the persisted record, the regular files on
    disk, the reading of the clock (a run is short against its resolution:
    it does not advance) and the calls made so far, oldest first. *)
Record World : Type := {
  persisted : UpdateState.t;
  files : list wstring;
  clock : time_t;
  trace : list Event
}.

Definition log_event (e : Event) (w : World) : World :=
  {| persisted := persisted w; files := files w; clock := clock w;
     trace := trace w ++ [e] |}.

Definition set_persisted (s : UpdateState.t) (w : World) : World :=
  {| persisted := s; files := files w; clock := clock w; trace := trace w |}.

Definition set_files (fs : list wstring) (w : World) : World :=
  {| persisted := persisted w; files := fs; clock := clock w;
     trace := trace w |}.

(** Windows file names are case-insensitive: two paths name the same file
    when they agree after case folding. *)
Definition same_file (p q : wstring) : bool :=
  bool_decide (transform_towlower p = transform_towlower q).

Definition is_regular_file (fs : list wstring) (p : wstring) : bool :=
  existsb (same_file p) fs.

Definition remove_file (fs : list wstring) (p : wstring) : list wstring :=
  filter (λ q, same_file p q = false) fs.

(** How a run of a piece of the program ends: it returns, it reads the
    argument vector past its end (undefined behaviour), or it blocks for
    ever in an untimed wait.  The other calls into the system
    ([SendMessageW], [MsiInstallProductW], the file-system queries, the
    futures of the collaborators) are answered by the oracles: that they
    return, and without an exception, is taken for granted, and so is what
    an installer does to the disk.  The properties below are stated so
    that they do not rest on this: they speak of the calls made and of the
    runs that return. *)
Inductive Outcome (A : Type) : Type :=
| Returns (a : A)
| ReadsPastArgs
| WaitsForever.
Arguments Returns {A} a.
Arguments ReadsPastArgs {A}.
Arguments WaitsForever {A}.

Definition M (A : Type) : Type := World → Outcome A * World.

#[global] Instance M_ret : MRet M := λ A a w, (Returns a, w).

#[global] Instance M_bind : MBind M := λ A B f m w,
  match m w with
  | (Returns a, w') => f a w'
  | (ReadsPastArgs, w') => (ReadsPastArgs, w')
  | (WaitsForever, w') => (WaitsForever, w')
  end.

Definition call (e : Event) : M unit := λ w, (Returns tt, log_event e w).

Definition when (b : bool) (m : M unit) : M unit := if b then m else mret tt.

(** ** The program *)

Section Program.

Variable cmd : cmdArg.
(** The window class of the host's tray icon (runner/tray_icon.h). *)
Variable pt_tray_icon_window_class : wstring.
Variable os : Env.

(** *** Primitive operations *)

Definition timeutil_now : M time_t := λ w, (Returns (clock w), w).

Definition UpdateState_read : M UpdateState.t :=
  λ w, (Returns (persisted w), w).

(** [UpdateState::store(f)]: the stored record is read, [f] mutates it
    and the result replaces the stored record. *)
Definition UpdateState_store (f : UpdateState.t → M UpdateState.t)
  : M unit :=
  λ w,
    match f (persisted w) w with
    | (Returns s', w') => (Returns tt, log_event (EStore s') (set_persisted s' w'))
    | (ReadsPastArgs, w') => (ReadsPastArgs, w')
    | (WaitsForever, w') => (WaitsForever, w')
    end.

Definition Logger_error (m : LogMessage) : M unit := call (ELoggerError m).

Definition fs_is_regular_file (p : wstring) : M bool :=
  λ w, (Returns (is_regular_file (files w) p), w).

(** [fs::copy_file(from, to, overwrite_existing, error)]; returns
    whether [error] is set. *)
Definition fs_copy_file (from to : wstring) : M bool :=
  λ w,
    let error := copy_file_error os from to in
    (Returns error,
     set_files (if error then files w else to :: remove_file (files w) to)
       (log_event (ECopyFile from to) w)).

(** [fs::remove(p, _)]: best effort, the error code is dropped. *)
Definition fs_remove (p : wstring) : M unit :=
  λ w,
    (Returns tt,
     set_files (if remove_error os p then files w else remove_file (files w) p)
       (log_event (ERemove p) w)).

Definition get_github_version_info_async_get
  : M (wstring + github_version_info) :=
  _ ← call EGetGithubVersionInfo;
  mret (get_github_version_info_async os).

(** A finished download leaves the installer on disk. *)
Definition download_new_version_get (info : new_version_download_info)
  : M (option wstring) :=
  λ w,
    let downloaded := download_new_version os info in
    (Returns downloaded,
     set_files (match downloaded with
                | Some p => p :: remove_file (files w) p
                | None => files w
                end)
       (log_event (EDownloadNewVersion info) w)).

Definition ShellExecuteExW_call (sei : SHELLEXECUTEINFOW) : M bool :=
  _ ← call (EShellExecuteExW sei);
  mret (ShellExecuteExW os sei).

Definition MsiInstallProductW_call
    (szPackagePath : wstring) (szCommandLine : option wstring) : M Z :=
  _ ← call (EMsiInstallProductW szPackagePath szCommandLine);
  mret (MsiInstallProductW os szPackagePath szCommandLine).

(** [WaitForSingleObject(sei.hProcess, INFINITE)] followed by
    [GetExitCodeProcess]: there is no timeout, so a child that never
    exits blocks the caller for ever. *)
Definition WaitForSingleObject_GetExitCodeProcess (sei : SHELLEXECUTEINFOW)
  : M Z :=
  λ w,
    let w1 := log_event EWaitForSingleObject w in
    match GetExitCodeProcess os sei with
    | Some exitCode => (Returns exitCode, w1)
    | None => (WaitsForever, w1)
    end.

(** [args[i]] on the vector of [CommandLineToArgvW]: an index at or past
    [nArgs] is a read past the supplied arguments. *)
Definition args_at (args : list wstring) (i : nat) : M wstring :=
  λ w,
    match args !! i with
    | Some a => (Returns a, w)
    | None => (ReadsPastArgs, w)
    end.

(** *** [CopySelfToTempDir] *)

Definition CopySelfToTempDir : M (option wstring) :=
  let dst_path := path_append os (temp_directory_path os) (L "PowerToys.Update.exe") in
  error ← fs_copy_file (get_module_filename os) dst_path;
  if error : bool then mret None else mret (Some dst_path).

(** *** [ObtainInstallerPath] *)

Definition ObtainInstallerPath : M (option wstring) :=
  state ← UpdateState_read;
  if bool_decide (UpdateState.state state = UpdateState.readyToDownload)
     || bool_decide (UpdateState.state state = UpdateState.errorDownloading)
  then
    new_version_info ← get_github_version_info_async_get;
    match new_version_info with
    | inl error =>
        _ ← Logger_error (CouldntObtainGithubVersionInfo error);
        mret None
    | inr version_up_to_date =>
        _ ← Logger_error NoUpdateWasAvailable;
        mret None
    | inr (new_version info) =>
        downloaded_installer ← download_new_version_get info;
        _ ← when (negb (bool_decide (is_Some downloaded_installer)))
              (Logger_error CouldntDownloadNewInstaller);
        mret downloaded_installer
    end
  else if bool_decide (UpdateState.state state = UpdateState.readyToInstall)
  then
    let installer :=
      path_append os (get_pending_updates_path os)
        (UpdateState.downloadedInstallerFilename state) in
    regular ← fs_is_regular_file installer;
    if regular : bool
    then mret (Some installer)
    else
      _ ← Logger_error (CouldntFindDownloadedInstaller installer);
      mret None
  else
    _ ← Logger_error UpdateStateWasInvalid;
    mret None.

(** *** [InstallNewVersionStage1] *)

(** The [SHELLEXECUTEINFOW] that launches Stage 2 from the copy in the
    temporary directory. *)
Definition stage2_launch_sei (copy_in_temp arguments : wstring)
  : SHELLEXECUTEINFOW :=
  {| fMask := Z.lor SEE_MASK_FLAG_NO_UI SEE_MASK_NOASYNC;
     lpFile := c_str copy_in_temp;
     nShow := SW_SHOWNORMAL;
     lpParameters := c_str arguments |}.

(** The command line built for Stage 2. *)
Definition stage2_arguments (installer : wstring) (launch_powertoys : bool)
  : wstring :=
  let arguments := UPDATE_NOW_LAUNCH_STAGE2 cmd in
  let arguments := arguments ++ (L " " ++ dquote) in
  let arguments := arguments ++ c_str installer in
  let arguments := arguments ++ (dquote ++ L " " ++ dquote) in
  let arguments := arguments ++ get_module_folderpath os in
  let arguments := arguments ++ (dquote ++ L " ") in
  arguments ++ (if launch_powertoys
                then UPDATE_STAGE2_RESTART_PT cmd
                else UPDATE_STAGE2_DONT_START_PT cmd).

Definition InstallNewVersionStage1 : M bool :=
  installer ← ObtainInstallerPath;
  match installer with
  | None => mret false
  | Some installer =>
      copy_in_temp ← CopySelfToTempDir;
      match copy_in_temp with
      | Some copy_in_temp =>
          let pt_main_window := FindWindowW os pt_tray_icon_window_class in
          let launch_powertoys := bool_decide (is_Some pt_main_window) in
          _ ← match pt_main_window with
              | Some hwnd => call (ESendMessageW hwnd WM_CLOSE)
              | None => mret tt
              end;
          let arguments := stage2_arguments installer launch_powertoys in
          ShellExecuteExW_call (stage2_launch_sei copy_in_temp arguments)
      | None => mret false
      end
  end.

(** *** [InstallNewVersionStage2] *)

(** The mutation stored after a successful install. *)
Definition stage2_success_update (state : UpdateState.t) : M UpdateState.t :=
  let state := UpdateState.default in
  now ← timeutil_now;
  let state := UpdateState.emplace_githubUpdateLastCheckedDate now state in
  let state := UpdateState.set_state UpdateState.upToDate state in
  mret state.

(** The [SHELLEXECUTEINFOW] that runs a WiX bootstrapper. *)
Definition bootstrapper_sei (installer_path : wstring) : SHELLEXECUTEINFOW :=
  {| fMask := Z.lor (Z.lor (Z.lor SEE_MASK_FLAG_NO_UI SEE_MASK_NOASYNC)
                       SEE_MASK_NOCLOSEPROCESS) SEE_MASK_NO_CONSOLE;
     lpFile := c_str installer_path;
     nShow := SW_SHOWNORMAL;
     lpParameters := c_str (L "/passive /norestart") |}.

(** The [SHELLEXECUTEINFOW] that starts the updated host again. *)
Definition restart_sei (install_path : wstring) : SHELLEXECUTEINFOW :=
  let new_pt_path := install_path ++ L "\PowerToys.exe" in
  {| fMask := Z.lor SEE_MASK_FLAG_NO_UI SEE_MASK_NOASYNC;
     lpFile := c_str new_pt_path;
     nShow := SW_SHOWNORMAL;
     lpParameters := UPDATE_REPORT_SUCCESS cmd |}.

Definition InstallNewVersionStage2
    (installer_path install_path : wstring) (launch_powertoys : bool)
  : M bool :=
  let installer_path := transform_towlower installer_path in
  success ←
    (if ends_with installer_path (L ".msi")
     then
       result ← MsiInstallProductW_call (c_str installer_path) None;
       mret (bool_decide (result = ERROR_SUCCESS))
     else
       (* If it's not .msi, then it's a wix bootstrapper *)
       let sei := bootstrapper_sei installer_path in
       success ← ShellExecuteExW_call sei;
       (* Wait for the install completion *)
       if success : bool
       then
         exitCode ← WaitForSingleObject_GetExitCodeProcess sei;
         let success := bool_decide (exitCode = 0%Z) in
         _ ← call ECloseHandle;
         mret success
       else mret success);
  if negb success
  then mret false
  else
    _ ← fs_remove installer_path;
    _ ← UpdateState_store stage2_success_update;
    if launch_powertoys
    then ShellExecuteExW_call (restart_sei install_path)
    else mret true.

(** *** [WinMain] *)

(** The mutation stored when Stage 1 failed. *)
Definition stage1_failure_update (state : UpdateState.t) : M UpdateState.t :=
  let state := UpdateState.set_downloadedInstallerFilename [] state in
  now ← timeutil_now;
  let state := UpdateState.emplace_githubUpdateLastCheckedDate now state in
  let state := UpdateState.set_state UpdateState.errorDownloading state in
  mret state.

(** The mutation stored when Stage 2 failed. *)
Definition stage2_failure_update (state : UpdateState.t) : M UpdateState.t :=
  let state := UpdateState.set_downloadedInstallerFilename [] state in
  now ← timeutil_now;
  let state := UpdateState.emplace_githubUpdateLastCheckedDate now state in
  let state := UpdateState.set_state UpdateState.errorDownloading state in
  mret state.

(** [args] is what [CommandLineToArgvW] returns ([None] for a null
    pointer), [nArgs] its length; the result is the exit code. *)
Definition WinMain (args : option (list wstring)) : M Z :=
  match args with
  | None => mret 1%Z
  | Some args =>
      let nArgs := length args in
      if (nArgs <? 2)%nat
      then mret 1%Z
      else
        action ← args_at args 1;
        _ ← call ELoggerInit;
        if bool_decide (action = UPDATE_NOW_LAUNCH_STAGE1 cmd)
        then
          ok ← InstallNewVersionStage1;
          let failed := negb ok in
          _ ← when failed (UpdateState_store stage1_failure_update);
          mret (Z.b2z failed)
        else if bool_decide (action = UPDATE_NOW_LAUNCH_STAGE2 cmd)
        then
          installer_path ← args_at args 2;
          install_path ← args_at args 3;
          directive ← args_at args 4;
          ok ← InstallNewVersionStage2 installer_path install_path
                 (bool_decide (directive = UPDATE_STAGE2_RESTART_PT cmd));
          let failed := negb ok in
          _ ← when failed (UpdateState_store stage2_failure_update);
          mret (Z.b2z failed)
        else mret 0%Z
  end.

End Program.


(** ** Vocabulary of the properties *)

(** The world reached from [w] once the calls [es] have been made, with
    the persisted record [s] and the files [fs]. *)
Definition world_after (s : UpdateState.t) (fs : list wstring)
    (es : list Event) (w : World) : World :=
  {| persisted := s; files := fs; clock := clock w; trace := trace w ++ es |}.

(** The installer run of Stage 2 succeeds: the package-installer API
    returns [ERROR_SUCCESS], or the bootstrapper is launched and exits with
    code 0. *)
Definition installer_succeeds (os : Env) (installer_path : wstring) : Prop :=
  let p := transform_towlower installer_path in
  if ends_with p (L ".msi")
  then MsiInstallProductW os (c_str p) None = ERROR_SUCCESS
  else ShellExecuteExW os (bootstrapper_sei p) = true
       ∧ GetExitCodeProcess os (bootstrapper_sei p) = Some 0%Z.

(** The installer run fails: the API returns another code, the bootstrapper
    cannot be launched, or it exits with a non-zero code. *)
Definition installer_fails (os : Env) (installer_path : wstring) : Prop :=
  let p := transform_towlower installer_path in
  if ends_with p (L ".msi")
  then MsiInstallProductW os (c_str p) None ≠ ERROR_SUCCESS
  else ShellExecuteExW os (bootstrapper_sei p) = false
       ∨ ∃ exitCode, ShellExecuteExW os (bootstrapper_sei p) = true
           ∧ GetExitCodeProcess os (bootstrapper_sei p) = Some exitCode
           ∧ exitCode ≠ 0%Z.

(** The bootstrapper is launched and never exits. *)
Definition installer_hangs (os : Env) (installer_path : wstring) : Prop :=
  let p := transform_towlower installer_path in
  ends_with p (L ".msi") = false
  ∧ ShellExecuteExW os (bootstrapper_sei p) = true
  ∧ GetExitCodeProcess os (bootstrapper_sei p) = None.

(** The calls of the installer run, up to the point where its success is
    known. *)
Definition installer_events (os : Env) (installer_path : wstring)
  : list Event :=
  let p := transform_towlower installer_path in
  if ends_with p (L ".msi")
  then [EMsiInstallProductW (c_str p) None]
  else
    EShellExecuteExW (bootstrapper_sei p) ::
    (if ShellExecuteExW os (bootstrapper_sei p)
     then EWaitForSingleObject ::
          match GetExitCodeProcess os (bootstrapper_sei p) with
          | Some _ => [ECloseHandle]
          | None => []
          end
     else []).

(** The record stored after a successful install at time [now]. *)
Definition up_to_date_at (now : time_t) : UpdateState.t :=
  {| UpdateState.state := UpdateState.upToDate;
     UpdateState.downloadedInstallerFilename := [];
     UpdateState.githubUpdateLastCheckedDate := Some now |}.

(** The record stored after a failed stage at time [now]. *)
Definition error_downloading_at (now : time_t) : UpdateState.t :=
  {| UpdateState.state := UpdateState.errorDownloading;
     UpdateState.downloadedInstallerFilename := [];
     UpdateState.githubUpdateLastCheckedDate := Some now |}.

(** A record whose status is not [readyToInstall] and whose file name is
    cleared; such a record satisfies the file-name invariant. *)
Definition filename_cleared (s : UpdateState.t) : Prop :=
  UpdateState.state s ≠ UpdateState.readyToInstall
  ∧ UpdateState.downloadedInstallerFilename s = [].

(** [m] only makes calls that satisfy [P], and the persisted record it
    leaves is the one it found or one it stored. *)
Definition emits_only {A} (P : Event → Prop) (m : M A) : Prop :=
  ∀ w, ∃ es,
    trace (m w).2 = trace w ++ es
    ∧ Forall P es
    ∧ (persisted (m w).2 = persisted w
       ∨ ∃ s, EStore s ∈ es ∧ persisted (m w).2 = s).

Definition is_store_of (P : UpdateState.t → Prop) (e : Event) : Prop :=
  match e with
  | EStore s => P s
  | _ => True
  end.

(** Every record stored has its file name cleared. *)
Definition stores_cleared : Event → Prop := is_store_of filename_cleared.

(** The calls of the resolver: queries to the collaborators and log
    lines. *)
Definition is_resolver_event (e : Event) : Prop :=
  match e with
  | EGetGithubVersionInfo | EDownloadNewVersion _ | ELoggerError _ => True
  | _ => False
  end.

(** What Stage 2 does once the installer run has succeeded. *)
Definition post_install_event (cmd : cmdArg) (install_path : wstring)
    (e : Event) : Prop :=
  match e with
  | ERemove _ | EStore _ => True
  | EShellExecuteExW sei => sei = restart_sei cmd install_path
  | _ => False
  end.

Definition is_close_request (e : Event) : bool :=
  match e with
  | ESendMessageW _ msg => bool_decide (msg = WM_CLOSE)
  | _ => false
  end.

(** How many close requests a trace holds. *)
Definition close_requests (es : list Event) : nat :=
  length (filter (λ e, is_close_request e = true) es).

(** A string without an embedded NUL, as every C string is. *)
Definition nul_free (s : wstring) : Prop := Forall (λ c, c ≠ 0%N) s.

(** [m] always returns (it neither reads past the arguments nor blocks),
    and it leaves the clock alone. *)
Definition steady {A} (m : M A) : Prop :=
  ∀ w, ∃ a, (m w).1 = Returns a ∧ clock (m w).2 = clock w.

(** Whatever [m] returns satisfies [Q]. *)
Definition returns_only {A} (Q : A → Prop) (m : M A) : Prop :=
  ∀ w a, (m w).1 = Returns a → Q a.

(** The calls of Stage 1: those of the resolver, the self-copy, a close
    request, and a launch that keeps no process handle to wait on. *)
Definition is_stage1_event (e : Event) : Prop :=
  match e with
  | EGetGithubVersionInfo | EDownloadNewVersion _ | ELoggerError _
  | ECopyFile _ _ => True
  | ESendMessageW _ msg => msg = WM_CLOSE
  | EShellExecuteExW sei =>
      fMask sei = Z.lor SEE_MASK_FLAG_NO_UI SEE_MASK_NOASYNC
  | _ => False
  end.

Definition is_error_line (e : Event) : bool :=
  match e with
  | ELoggerError _ => true
  | _ => false
  end.

(** How many error lines a trace holds. *)
Definition error_lines (es : list Event) : nat :=
  length (filter (λ e, is_error_line e = true) es).

Definition is_process_launch (e : Event) : bool :=
  match e with
  | EShellExecuteExW _ | EMsiInstallProductW _ _ => true
  | _ => false
  end.

(** How many processes or installs a trace starts. *)
Definition process_launches (es : list Event) : nat :=
  length (filter (λ e, is_process_launch e = true) es).

(** The only file a run on [args] may remove: the installer named by the
    stage-2 arguments, once its run has succeeded. *)
Definition removes_only_the_installer (cmd : cmdArg) (os : Env)
    (args : list wstring) (e : Event) : Prop :=
  match e with
  | ERemove q =>
      ∃ p, args !! 1 = Some (UPDATE_NOW_LAUNCH_STAGE2 cmd)
           ∧ args !! 2 = Some p
           ∧ q = transform_towlower p
           ∧ installer_succeeds os p
  | _ => True
  end.

(** The call [e] does not set the installer's user-interface level. *)
Definition sets_no_ui_level (e : Event) : Prop :=
  ∀ level, e ≠ EMsiSetInternalUI level.

(** The user-interface level the program has chosen once the calls [es]
    have been made: that of its last [MsiSetInternalUI], [None] when it
    has made no such call. *)
Fixpoint ui_level_set (es : list Event) : option Z :=
  match es with
  | [] => None
  | e :: es' =>
      match ui_level_set es' with
      | Some level => Some level
      | None =>
          match e with
          | EMsiSetInternalUI level => Some level
          | _ => None
          end
      end
  end.

(** The MSI installs of the trace [es] are silent: each
    [MsiInstallProductW] is made after the program has set the level
    [INSTALLUILEVEL_NONE]. *)
Definition silent_msi_install (es : list Event) : Prop :=
  ∀ before path cl after,
    es = before ++ EMsiInstallProductW path cl :: after →
    ui_level_set before = Some INSTALLUILEVEL_NONE.

(** ** A concrete machine *)

(** A sample choice of the command-line tokens. *)
Definition sample_cmd : cmdArg :=
  {| UPDATE_NOW_LAUNCH_STAGE1 := L "-update_now";
     UPDATE_NOW_LAUNCH_STAGE2 := L "-update_now_stage_2";
     UPDATE_STAGE2_RESTART_PT := L "restart";
     UPDATE_STAGE2_DONT_START_PT := L "dont_start";
     UPDATE_REPORT_SUCCESS := L "-report_update_success" |}.

Definition sample_window_class : wstring := L "PToyTrayIconWindow".

(** A machine on which nothing is on offer for download, file operations
    succeed, and the answers of the shell, of the MSI service, of the
    bootstrapper and of the window registry are as given. *)
Definition sample_os (shell : SHELLEXECUTEINFOW → bool) (msi : Z)
    (exit : option Z) (window : option HWND) : Env :=
  {| get_github_version_info_async := inr version_up_to_date;
     download_new_version := λ _, None;
     copy_file_error := λ _ _, false;
     remove_error := λ _, false;
     FindWindowW := λ _, window;
     ShellExecuteExW := shell;
     MsiInstallProductW := λ _ _, msi;
     GetExitCodeProcess := λ _, exit;
     temp_directory_path := L "C:\Temp";
     get_module_filename := L "C:\PowerToys\PowerToys.Update.exe";
     get_module_folderpath := L "C:\PowerToys";
     get_pending_updates_path := L "C:\Updates";
     path_append := λ a b, a ++ L "\" ++ b |}.

(** A world in which an installer has been downloaded. *)
Definition sample_world (filename : wstring) : World :=
  {| persisted :=
       {| UpdateState.state := UpdateState.readyToInstall;
          UpdateState.downloadedInstallerFilename := filename;
          UpdateState.githubUpdateLastCheckedDate := Some 1000%Z |};
     files := [L "C:\Updates\" ++ filename];
     clock := 2000%Z;
     trace := [] |}.

(** A machine on which a new version is on offer; the download, the
    self-copy, the window registry and the shell answer as given. *)
Definition sample_os_offering (download : option wstring)
    (copy_error : bool) (window : option HWND)
    (shell : SHELLEXECUTEINFOW → bool) : Env :=
  {| get_github_version_info_async :=
       inr (new_version (DownloadInfo (L "PowerToysSetup-x64.exe")));
     download_new_version := λ _, download;
     copy_file_error := λ _ _, copy_error;
     remove_error := λ _, false;
     FindWindowW := λ _, window;
     ShellExecuteExW := shell;
     MsiInstallProductW := λ _ _, 0%Z;
     GetExitCodeProcess := λ _, Some 0%Z;
     temp_directory_path := L "C:\Temp";
     get_module_filename := L "C:\PowerToys\PowerToys.Update.exe";
     get_module_folderpath := L "C:\PowerToys";
     get_pending_updates_path := L "C:\Updates";
     path_append := λ a b, a ++ L "\" ++ b |}.

(** A world in which an update is known but not downloaded yet. *)
Definition sample_world_to_download : World :=
  {| persisted :=
       {| UpdateState.state := UpdateState.readyToDownload;
          UpdateState.downloadedInstallerFilename := [];
          UpdateState.githubUpdateLastCheckedDate := Some 1000%Z |};
     files := [];
     clock := 2000%Z;
     trace := [] |}.

(** The machine [os] with the installer file held open: removing a file
    fails. *)
Definition with_failing_removal (os : Env) : Env :=
  {| get_github_version_info_async := get_github_version_info_async os;
     download_new_version := download_new_version os;
     copy_file_error := copy_file_error os;
     remove_error := λ _, true;
     FindWindowW := FindWindowW os;
     ShellExecuteExW := ShellExecuteExW os;
     MsiInstallProductW := MsiInstallProductW os;
     GetExitCodeProcess := GetExitCodeProcess os;
     temp_directory_path := temp_directory_path os;
     get_module_filename := get_module_filename os;
     get_module_folderpath := get_module_folderpath os;
     get_pending_updates_path := get_pending_updates_path os;
     path_append := path_append os |}.

(** The shell launches everything but the updated host. *)
Definition shell_refusing_restart (sei : SHELLEXECUTEINFOW) : bool :=
  negb (bool_decide (sei = restart_sei sample_cmd (L "C:\PowerToys"))).

(** ** Reasoning about runs *)

(** Unfolds the monad and the primitive operations, so that a run reduces
    as far as the answers of the environment are known. *)
Ltac unfold_M :=
  cbv beta iota zeta delta
    [mbind M_bind mret M_ret call when Logger_error timeutil_now
     UpdateState_read UpdateState_store fs_is_regular_file fs_copy_file
     fs_remove get_github_version_info_async_get download_new_version_get
     ShellExecuteExW_call MsiInstallProductW_call
     WaitForSingleObject_GetExitCodeProcess args_at
     stage2_success_update stage1_failure_update stage2_failure_update
     log_event set_persisted set_files world_after negb];
  cbn [persisted files clock trace fst snd].

(** Closes an equation between an outcome and the world it is reached in. *)
Ltac world_eq :=
  unfold_M;
  unfold up_to_date_at, error_downloading_at;
  cbn [UpdateState.set_state UpdateState.set_downloadedInstallerFilename
       UpdateState.emplace_githubUpdateLastCheckedDate UpdateState.default
       UpdateState.state UpdateState.downloadedInstallerFilename
       UpdateState.githubUpdateLastCheckedDate];
  rewrite <- ?app_assoc; cbn [app];
  reflexivity.

Lemma towlower_idemp c : towlower (towlower c) = towlower c.
Proof.
  unfold towlower.
  destruct ((65 <=? c)%N && (c <=? 90)%N) eqn:Hc.
  - apply andb_true_iff in Hc as [H1%N.leb_le H2%N.leb_le].
    destruct ((65 <=? c + 32)%N && (c + 32 <=? 90)%N) eqn:Hc'; [|done].
    apply andb_true_iff in Hc' as [_ H4%N.leb_le]. lia.
  - by rewrite Hc.
Qed.

Lemma transform_towlower_idemp s :
  transform_towlower (transform_towlower s) = transform_towlower s.
Proof.
  unfold transform_towlower. rewrite map_map.
  apply map_ext. intros c. apply towlower_idemp.
Qed.

Lemma transform_towlower_app s1 s2 :
  transform_towlower (s1 ++ s2)
  = transform_towlower s1 ++ transform_towlower s2.
Proof. apply map_app. Qed.

(** [ends_with] decides the suffix relation. *)
Lemma ends_with_suffix s x : ends_with s x = true ↔ x `suffix_of` s.
Proof.
  unfold ends_with. rewrite andb_true_iff, Nat.leb_le, bool_decide_eq_true.
  split.
  - intros [_ Hd]. exists (take (length s - length x) s).
    rewrite <- Hd at 2. by rewrite take_drop.
  - intros [k ->]. rewrite length_app. split; [lia|].
    replace (length k + length x - length x) with (length k) by lia.
    by rewrite drop_app_length.
Qed.

Lemma c_str_nul_free s : nul_free s → c_str s = s.
Proof.
  induction 1 as [|c s Hc _ IH]; [done|].
  cbn. destruct (N.eqb_spec c 0); [done|]. by rewrite IH.
Qed.

Lemma same_file_towlower p : same_file p (transform_towlower p) = true.
Proof.
  unfold same_file. apply bool_decide_eq_true.
  by rewrite transform_towlower_idemp.
Qed.

(** A removed file is no longer a regular file, under any casing of its
    name. *)
Lemma is_regular_file_remove_file fs p q :
  same_file p q = true → is_regular_file (remove_file fs q) p = false.
Proof.
  unfold same_file. intros Hpq%bool_decide_eq_true.
  unfold is_regular_file, remove_file.
  apply not_true_is_false. intros (r & Hr & Hs)%existsb_exists.
  apply list_elem_of_In, list_elem_of_filter in Hr as [Hne _].
  unfold same_file in *. apply bool_decide_eq_true in Hs.
  apply bool_decide_eq_false in Hne. congruence.
Qed.

(** ** Stage 2, case by case *)

Section Stage2.

Variable cmd : cmdArg.
Variable os : Env.

(** An installer run succeeds, fails, or never ends. *)
Lemma installer_run_cases p :
  installer_succeeds os p ∨ installer_fails os p ∨ installer_hangs os p.
Proof.
  unfold installer_succeeds, installer_fails, installer_hangs.
  cbv zeta.
  destruct (ends_with _ _).
  - destruct (decide (MsiInstallProductW os
                        (c_str (transform_towlower p)) None
                      = ERROR_SUCCESS));
      auto.
  - destruct (ShellExecuteExW _ _); [|auto].
    destruct (GetExitCodeProcess _ _) as [c|]; [|auto].
    destruct (decide (c = 0%Z)) as [->|]; [auto|].
    right; left; right. by exists c.
Qed.

Lemma installer_succeeds_not_fails p :
  installer_succeeds os p → ¬ installer_fails os p.
Proof.
  unfold installer_succeeds, installer_fails. cbv zeta.
  destruct (ends_with _ _).
  - intros H1 H2. done.
  - intros [H1 H2] [H3 | (c & _ & H4 & H5)]; congruence.
Qed.

(** A failed installer run: Stage 2 returns [false] right away; nothing
    is removed and nothing is stored. *)
Lemma InstallNewVersionStage2_failure p d l w :
  installer_fails os p →
  InstallNewVersionStage2 cmd os p d l w
  = (Returns false,
     world_after (persisted w) (files w) (installer_events os p) w).
Proof.
  unfold installer_fails, installer_events, InstallNewVersionStage2.
  cbv zeta. destruct (ends_with _ _).
  - intros Hne. unfold_M. rewrite bool_decide_eq_false_2 by done.
    world_eq.
  - intros [Hsh | (c & Hsh & Hex & Hc)]; unfold_M; rewrite Hsh.
    + world_eq.
    + unfold_M. rewrite Hex. rewrite bool_decide_eq_false_2 by done.
      world_eq.
Qed.

(** A bootstrapper that never exits: Stage 2 stays in the wait; nothing
    is removed and nothing is stored. *)
Lemma InstallNewVersionStage2_hang p d l w :
  installer_hangs os p →
  InstallNewVersionStage2 cmd os p d l w
  = (WaitsForever,
     world_after (persisted w) (files w) (installer_events os p) w).
Proof.
  unfold installer_hangs, installer_events, InstallNewVersionStage2.
  cbv zeta. intros (-> & Hsh & Hex).
  unfold_M. rewrite Hsh. unfold_M. rewrite Hex. world_eq.
Qed.

(** A successful installer run: the installer file is removed, then the
    up-to-date record is stored, then the host is started again if that
    was asked for. *)
Lemma InstallNewVersionStage2_success p d l w :
  installer_succeeds os p →
  let p' := transform_towlower p in
  InstallNewVersionStage2 cmd os p d l w
  = (Returns (if l then ShellExecuteExW os (restart_sei cmd d) else true),
     world_after (up_to_date_at (clock w))
       (if remove_error os p' then files w else remove_file (files w) p')
       (installer_events os p
        ++ [ERemove p'; EStore (up_to_date_at (clock w))]
        ++ (if l then [EShellExecuteExW (restart_sei cmd d)] else []))
       w).
Proof.
  unfold installer_succeeds, installer_events, InstallNewVersionStage2.
  cbv zeta. destruct (ends_with _ _).
  - intros Hok. unfold_M. rewrite bool_decide_eq_true_2 by done.
    destruct l; world_eq.
  - intros [Hsh Hex]. unfold_M. rewrite Hsh. unfold_M. rewrite Hex.
    rewrite bool_decide_eq_true_2 by done.
    destruct l; world_eq.
Qed.

(** The installer run itself removes no file and stores no record. *)
Lemma installer_events_no_remove_no_store p e :
  e ∈ installer_events os p →
  (∀ q, e ≠ ERemove q) ∧ (∀ s, e ≠ EStore s).
Proof.
  unfold installer_events. cbv zeta.
  destruct (ends_with _ _).
  - intros ->%list_elem_of_singleton. done.
  - destruct (ShellExecuteExW _ _); [destruct (GetExitCodeProcess _ _)|];
      intros He; repeat (apply elem_of_cons in He as [->|He]; [done|]);
      by apply not_elem_of_nil in He.
Qed.

Lemma installer_events_no_store p s : EStore s ∉ installer_events os p.
Proof.
  intros Hs.
  destruct (installer_events_no_remove_no_store p _ Hs) as [_ H].
  by apply (H s).
Qed.

Lemma installer_events_no_remove p q : ERemove q ∉ installer_events os p.
Proof.
  intros Hq.
  destruct (installer_events_no_remove_no_store p _ Hq) as [H _].
  by apply (H q).
Qed.

End Stage2.

(** ** The entry point *)

Section Main.

Variable cmd : cmdArg.
Variable cls : wstring.
Variable os : Env.

(** With the stage-2 token and all three further arguments, [WinMain]
    initialises the logger, runs Stage 2 and records a failure. *)
Lemma WinMain_stage2 exe p d r rest w :
  UPDATE_NOW_LAUNCH_STAGE2 cmd ≠ UPDATE_NOW_LAUNCH_STAGE1 cmd →
  WinMain cmd cls os
    (Some (exe :: UPDATE_NOW_LAUNCH_STAGE2 cmd :: p :: d :: r :: rest)) w
  = match InstallNewVersionStage2 cmd os p d
            (bool_decide (r = UPDATE_STAGE2_RESTART_PT cmd))
            (log_event ELoggerInit w) with
    | (Returns true, w1) => (Returns 0%Z, w1)
    | (Returns false, w1) =>
        (Returns 1%Z,
         world_after (error_downloading_at (clock w1)) (files w1)
           [EStore (error_downloading_at (clock w1))] w1)
    | (ReadsPastArgs, w1) => (ReadsPastArgs, w1)
    | (WaitsForever, w1) => (WaitsForever, w1)
    end.
Proof.
  intros Hne. unfold WinMain. cbn [length Nat.ltb Nat.leb].
  unfold_M. cbn [lookup list_lookup].
  rewrite bool_decide_eq_false_2 by done.
  rewrite bool_decide_eq_true_2 by done.
  destruct (InstallNewVersionStage2 _ _ _ _ _ _) as [[[]| |] w1]; world_eq.
Qed.

(** C1 (amended).  When the installer run of Stage 2 succeeds and the
    launch request that restarts the host is rejected, Stage 2 returns
    failure after the up-to-date record has been stored, and [WinMain]
    treats this like every other Stage-2 failure: it stores the status
    [errorDownloading] with the file name cleared and the time stamp
    refreshed, and exits with code 1.  The up-to-date record does not
    survive the run. *)
Theorem restart_failure_is_recorded_as_error exe p d rest w :
  UPDATE_NOW_LAUNCH_STAGE2 cmd ≠ UPDATE_NOW_LAUNCH_STAGE1 cmd →
  installer_succeeds os p →
  ShellExecuteExW os (restart_sei cmd d) = false →
  let p' := transform_towlower p in
  WinMain cmd cls os
    (Some (exe :: UPDATE_NOW_LAUNCH_STAGE2 cmd :: p :: d
             :: UPDATE_STAGE2_RESTART_PT cmd :: rest)) w
  = (Returns 1%Z,
     world_after (error_downloading_at (clock w))
       (if remove_error os p' then files w else remove_file (files w) p')
       ([ELoggerInit] ++ installer_events os p
        ++ [ERemove p';
            EStore (up_to_date_at (clock w));
            EShellExecuteExW (restart_sei cmd d);
            EStore (error_downloading_at (clock w))])
       w).
Proof.
  intros Hne Hok Hrestart p'.
  rewrite WinMain_stage2 by done.
  rewrite bool_decide_eq_true_2 by done.
  rewrite (InstallNewVersionStage2_success cmd os p d true _ Hok).
  rewrite Hrestart. world_eq.
Qed.

(** C2 (amended).  An invocation whose action argument is neither the
    stage-1 nor the stage-2 token exits with code 0; the logger is
    initialised and nothing else happens: the persisted record and the
    files are untouched and no process is launched. *)
Theorem unrecognized_action_exits_zero args action w :
  args !! 1 = Some action →
  action ≠ UPDATE_NOW_LAUNCH_STAGE1 cmd →
  action ≠ UPDATE_NOW_LAUNCH_STAGE2 cmd →
  WinMain cmd cls os (Some args) w
  = (Returns 0%Z, world_after (persisted w) (files w) [ELoggerInit] w).
Proof.
  intros Hact Hne1 Hne2. unfold WinMain.
  destruct args as [|exe [|a args]]; [done..|].
  injection Hact as ->.
  cbn [length Nat.ltb Nat.leb]. unfold_M. cbn [lookup list_lookup].
  rewrite !bool_decide_eq_false_2 by done.
  world_eq.
Qed.

(** C3 (amended).  In every Stage-2 run whose installer run succeeds, the
    removal of the installer file is attempted, best effort: an error of
    the removal is dropped, so the file is gone when the removal reports
    none and stays when it reports one.  Then the persisted record is
    overwritten with status [upToDate], an empty file name and the current
    time.  The store comes after the calls of the installer run; when the
    installer run does not succeed, Stage 2 stores nothing and leaves the
    persisted record as it was. *)
Theorem stage2_stores_up_to_date_only_after_success p d l w :
  let p' := transform_towlower p in
  let w' := (InstallNewVersionStage2 cmd os p d l w).2 in
  (installer_succeeds os p →
     persisted w' = up_to_date_at (clock w)
     ∧ trace w'
       = trace w ++ installer_events os p
         ++ [ERemove p'; EStore (up_to_date_at (clock w))]
         ++ (if l then [EShellExecuteExW (restart_sei cmd d)] else [])
     ∧ (remove_error os p' = false → is_regular_file (files w') p = false)
     ∧ (remove_error os p' = true → files w' = files w)
     ∧ ∀ s, EStore s ∉ installer_events os p)
  ∧ (¬ installer_succeeds os p →
       persisted w' = persisted w
       ∧ files w' = files w
       ∧ trace w' = trace w ++ installer_events os p
       ∧ ∀ s, EStore s ∉ installer_events os p).
Proof.
  intros p' w'. split.
  - intros Hok. subst w'.
    rewrite (InstallNewVersionStage2_success cmd os p d l w Hok).
    cbn [snd world_after persisted trace files]. fold p'.
    split_and!; [done|done| | |].
    + intros ->. apply is_regular_file_remove_file, same_file_towlower.
    + by intros ->.
    + apply installer_events_no_store.
  - intros Hnok. subst w'.
    pose proof (installer_events_no_store os p) as Hstore.
    destruct (installer_run_cases os p) as [?|[Hf|Hh]]; [done| |].
    + by rewrite (InstallNewVersionStage2_failure cmd os p d l w Hf).
    + by rewrite (InstallNewVersionStage2_hang cmd os p d l w Hh).
Qed.

(** C4.  In every Stage-2 run whose installer run fails, Stage 2 returns
    failure without removing the installer file, and [WinMain] then
    stores the status [errorDownloading] with the file name cleared (and
    the time stamp refreshed) and exits with code 1. *)
Theorem stage2_failure_keeps_installer_and_records_error
    exe p d r rest w :
  UPDATE_NOW_LAUNCH_STAGE2 cmd ≠ UPDATE_NOW_LAUNCH_STAGE1 cmd →
  installer_fails os p →
  (∀ l w1,
     InstallNewVersionStage2 cmd os p d l w1
     = (Returns false,
        world_after (persisted w1) (files w1) (installer_events os p) w1))
  ∧ (∀ q, ERemove q ∉ installer_events os p)
  ∧ WinMain cmd cls os
      (Some (exe :: UPDATE_NOW_LAUNCH_STAGE2 cmd :: p :: d :: r :: rest)) w
    = (Returns 1%Z,
       world_after (error_downloading_at (clock w)) (files w)
         ([ELoggerInit] ++ installer_events os p
          ++ [EStore (error_downloading_at (clock w))])
         w).
Proof.
  intros Hne Hf. split_and!.
  - intros l w1. by apply InstallNewVersionStage2_failure.
  - apply installer_events_no_remove.
  - rewrite WinMain_stage2 by done.
    rewrite (InstallNewVersionStage2_failure cmd os p d _ _ Hf).
    world_eq.
Qed.

(** C9 (the code at the failing inputs).  With the stage-2 token and
    fewer than three further arguments, [WinMain] does not exit with a
    status: after initialising the logger it reads the argument vector
    at positions 2 to 4, past the end of what was supplied. *)
Theorem stage2_with_missing_arguments_reads_past_end args w :
  args !! 1 = Some (UPDATE_NOW_LAUNCH_STAGE2 cmd) →
  UPDATE_NOW_LAUNCH_STAGE2 cmd ≠ UPDATE_NOW_LAUNCH_STAGE1 cmd →
  length args < 5 →
  WinMain cmd cls os (Some args) w
  = (ReadsPastArgs, world_after (persisted w) (files w) [ELoggerInit] w).
Proof.
  intros Hact Hne Hlen. unfold WinMain.
  destruct args as [|exe [|a args]]; [done..|].
  injection Hact as ->.
  cbn [length Nat.ltb Nat.leb]. unfold_M. cbn [lookup list_lookup].
  rewrite bool_decide_eq_false_2 by done.
  rewrite bool_decide_eq_true_2 by done.
  destruct args as [|a2 [|a3 [|a4 args]]]; cbn [lookup list_lookup];
    [world_eq..|].
  cbn [length] in Hlen. lia.
Qed.

End Main.

(** ** What a run may emit *)

Section Emits.

Context {A B : Type}.
Variable P : Event → Prop.

Lemma emits_only_ret (a : A) : emits_only P (mret a).
Proof. intros w. exists []. unfold_M. rewrite app_nil_r. auto. Qed.

Lemma emits_only_bind (m : M A) (f : A → M B) :
  emits_only P m → (∀ a, emits_only P (f a)) → emits_only P (m ≫= f).
Proof.
  intros Hm Hf w. destruct (Hm w) as (es1 & Ht1 & HP1 & Hs1).
  unfold mbind, M_bind. destruct (m w) as [[a| |] w1]; cbn [snd] in *.
  2,3: by exists es1.
  destruct (Hf a w1) as (es2 & Ht2 & HP2 & Hs2).
  exists (es1 ++ es2). split_and!.
  - by rewrite Ht2, Ht1, app_assoc.
  - by apply Forall_app.
  - destruct Hs2 as [Hs2 | (s & Hin & Hs2)].
    + rewrite Hs2. destruct Hs1 as [Hs1 | (s & Hin & Hs1)]; [by left|].
      right. exists s. split; [|done]. apply elem_of_app. by left.
    + right. exists s. split; [|done]. apply elem_of_app. by right.
Qed.

Lemma emits_only_call e : P e → emits_only P (call e).
Proof. intros He w. exists [e]. unfold_M. split_and!; auto. Qed.

(** An operation that only appends [es] to the trace and leaves the
    persisted record alone. *)
Lemma emits_only_logging (m : M A) es :
  Forall P es →
  (∀ w, trace (m w).2 = trace w ++ es ∧ persisted (m w).2 = persisted w) →
  emits_only P m.
Proof. intros HP Hm w. exists es. destruct (Hm w). auto. Qed.

Lemma emits_only_store (f : UpdateState.t → M UpdateState.t) :
  (∀ s w, ∃ s', f s w = (Returns s', w) ∧ P (EStore s')) →
  emits_only P (UpdateState_store f).
Proof.
  intros Hf w. destruct (Hf (persisted w) w) as (s' & Hs' & HP).
  exists [EStore s']. unfold UpdateState_store. rewrite Hs'. unfold_M.
  split_and!; [done|by constructor|].
  right. exists s'. split; [|done]. apply list_elem_of_singleton. done.
Qed.

End Emits.

Lemma emits_only_weaken {A} (P Q : Event → Prop) (m : M A) :
  (∀ e, P e → Q e) → emits_only P m → emits_only Q m.
Proof.
  intros HPQ Hm w. destruct (Hm w) as (es & Ht & HP & Hs).
  exists es. split_and!; [done| |done]. by eapply Forall_impl.
Qed.

(** Splits a run into its operations. *)
Ltac emits_step :=
  lazymatch goal with
  | |- emits_only _ (mret _) => apply emits_only_ret
  | |- emits_only _ (mbind _ _) => apply emits_only_bind; [|intros ?]
  | |- emits_only _ (call _) => apply emits_only_call
  | |- emits_only _ (UpdateState_store _) => apply emits_only_store
  | |- emits_only _ (if ?b then _ else _) => destruct b
  | |- emits_only _ (match ?x with _ => _ end) => destruct x
  end.

Section EmitsPrimitives.

Variable os : Env.
Variable P : Event → Prop.

Lemma emits_only_timeutil_now : emits_only P timeutil_now.
Proof.
  apply (emits_only_logging P _ []); [done|]. intros w. unfold_M.
  by rewrite app_nil_r.
Qed.

Lemma emits_only_UpdateState_read : emits_only P UpdateState_read.
Proof.
  apply (emits_only_logging P _ []); [done|]. intros w. unfold_M.
  by rewrite app_nil_r.
Qed.

Lemma emits_only_fs_is_regular_file p : emits_only P (fs_is_regular_file p).
Proof.
  apply (emits_only_logging P _ []); [done|]. intros w. unfold_M.
  by rewrite app_nil_r.
Qed.

Lemma emits_only_args_at args i : emits_only P (args_at args i).
Proof.
  apply (emits_only_logging P _ []); [done|]. intros w. unfold_M.
  destruct (args !! i); by rewrite app_nil_r.
Qed.

Lemma emits_only_fs_copy_file from to :
  P (ECopyFile from to) → emits_only P (fs_copy_file os from to).
Proof.
  intros HP. apply (emits_only_logging P _ [ECopyFile from to]); [auto|].
  intros w. by unfold_M.
Qed.

Lemma emits_only_fs_remove p :
  P (ERemove p) → emits_only P (fs_remove os p).
Proof.
  intros HP. apply (emits_only_logging P _ [ERemove p]); [auto|].
  intros w. by unfold_M.
Qed.

Lemma emits_only_download_new_version_get info :
  P (EDownloadNewVersion info) →
  emits_only P (download_new_version_get os info).
Proof.
  intros HP.
  apply (emits_only_logging P _ [EDownloadNewVersion info]); [auto|].
  intros w. by unfold_M.
Qed.

Lemma emits_only_get_github_version_info_async_get :
  P EGetGithubVersionInfo →
  emits_only P (get_github_version_info_async_get os).
Proof.
  intros HP. unfold get_github_version_info_async_get.
  repeat emits_step; done.
Qed.

Lemma emits_only_ShellExecuteExW_call sei :
  P (EShellExecuteExW sei) → emits_only P (ShellExecuteExW_call os sei).
Proof. intros HP. unfold ShellExecuteExW_call. repeat emits_step; done. Qed.

Lemma emits_only_MsiInstallProductW_call path cl :
  P (EMsiInstallProductW path cl) →
  emits_only P (MsiInstallProductW_call os path cl).
Proof.
  intros HP. unfold MsiInstallProductW_call. repeat emits_step; done.
Qed.

Lemma emits_only_WaitForSingleObject_GetExitCodeProcess sei :
  P EWaitForSingleObject →
  emits_only P (WaitForSingleObject_GetExitCodeProcess os sei).
Proof.
  intros HP. apply (emits_only_logging P _ [EWaitForSingleObject]); [auto|].
  intros w. unfold_M. by destruct (GetExitCodeProcess os sei).
Qed.

End EmitsPrimitives.

(** ** The stored records *)

Lemma stage2_success_update_eq s w :
  stage2_success_update s w = (Returns (up_to_date_at (clock w)), w).
Proof. world_eq. Qed.

Lemma stage1_failure_update_eq s w :
  stage1_failure_update s w = (Returns (error_downloading_at (clock w)), w).
Proof. world_eq. Qed.

Lemma stage2_failure_update_eq s w :
  stage2_failure_update s w = (Returns (error_downloading_at (clock w)), w).
Proof. world_eq. Qed.

Lemma filename_cleared_up_to_date_at now :
  filename_cleared (up_to_date_at now).
Proof. by split. Qed.

Lemma filename_cleared_error_downloading_at now :
  filename_cleared (error_downloading_at now).
Proof. by split. Qed.

Lemma filename_cleared_invariant s :
  filename_cleared s → UpdateState.filename_invariant s.
Proof. intros [Hs Hf]. unfold UpdateState.filename_invariant. by rewrite Hf. Qed.

(** ** What the functions of the program emit *)

Ltac emits :=
  repeat first
    [ emits_step
    | apply emits_only_timeutil_now
    | apply emits_only_UpdateState_read
    | apply emits_only_fs_is_regular_file
    | apply emits_only_args_at
    | apply emits_only_fs_copy_file
    | apply emits_only_fs_remove
    | apply emits_only_download_new_version_get
    | apply emits_only_get_github_version_info_async_get
    | apply emits_only_ShellExecuteExW_call
    | apply emits_only_MsiInstallProductW_call
    | apply emits_only_WaitForSingleObject_GetExitCodeProcess
    | progress unfold when, Logger_error ].

Section EmitsProgram.

Variable cmd : cmdArg.
Variable cls : wstring.
Variable os : Env.

(** The resolver only queries the collaborators and logs. *)
Lemma ObtainInstallerPath_emits :
  emits_only is_resolver_event (ObtainInstallerPath os).
Proof. unfold ObtainInstallerPath. emits; exact I. Qed.

Lemma stage2_success_update_safe s w :
  ∃ s', stage2_success_update s w = (Returns s', w) ∧ stores_cleared (EStore s').
Proof.
  eexists. split; [apply stage2_success_update_eq|].
  apply filename_cleared_up_to_date_at.
Qed.

Lemma stage1_failure_update_safe s w :
  ∃ s', stage1_failure_update s w = (Returns s', w) ∧ stores_cleared (EStore s').
Proof.
  eexists. split; [apply stage1_failure_update_eq|].
  apply filename_cleared_error_downloading_at.
Qed.

Lemma stage2_failure_update_safe s w :
  ∃ s', stage2_failure_update s w = (Returns s', w) ∧ stores_cleared (EStore s').
Proof.
  eexists. split; [apply stage2_failure_update_eq|].
  apply filename_cleared_error_downloading_at.
Qed.

Lemma InstallNewVersionStage1_safe :
  emits_only stores_cleared (InstallNewVersionStage1 cmd cls os).
Proof.
  unfold InstallNewVersionStage1.
  apply emits_only_bind.
  { apply (emits_only_weaken is_resolver_event); [|apply ObtainInstallerPath_emits].
    by intros []. }
  intros [installer|]; [|emits].
  unfold CopySelfToTempDir. cbv zeta. emits; exact I.
Qed.

Lemma InstallNewVersionStage2_safe p d l :
  emits_only stores_cleared (InstallNewVersionStage2 cmd os p d l).
Proof.
  unfold InstallNewVersionStage2. cbv zeta.
  emits; try exact I; apply stage2_success_update_safe.
Qed.

Lemma WinMain_safe args : emits_only stores_cleared (WinMain cmd cls os args).
Proof.
  unfold WinMain. destruct args as [args|]; [|emits].
  cbv zeta. destruct (_ <? _)%nat; [emits|].
  apply emits_only_bind; [emits|]. intros action.
  apply emits_only_bind; [emits; exact I|]. intros _.
  destruct (bool_decide (action = _)).
  - apply emits_only_bind; [apply InstallNewVersionStage1_safe|].
    intros ok. emits. apply stage1_failure_update_safe.
  - destruct (bool_decide (action = _)); [|emits].
    do 3 (apply emits_only_bind; [emits|]; intros ?).
    apply emits_only_bind; [apply InstallNewVersionStage2_safe|].
    intros ok. emits. apply stage2_failure_update_safe.
Qed.

End EmitsProgram.

(** ** The resolver, the stores and the dispatch *)

Lemma bootstrapper_sei_not_restart_sei cmd p d :
  bootstrapper_sei p ≠ restart_sei cmd d.
Proof. intros H. apply (f_equal fMask) in H. discriminate H. Qed.

Lemma InstallNewVersionStage2_trace cmd os p d l w :
  ∃ tail,
    trace (InstallNewVersionStage2 cmd os p d l w).2
    = trace w ++ installer_events os p ++ tail
    ∧ Forall (post_install_event cmd d) tail.
Proof.
  destruct (installer_run_cases os p) as [Hok|[Hf|Hh]].
  - rewrite (InstallNewVersionStage2_success cmd os p d l w Hok).
    eexists. split; [reflexivity|].
    destruct l; repeat constructor.
  - rewrite (InstallNewVersionStage2_failure cmd os p d l w Hf).
    exists []. by rewrite app_nil_r.
  - rewrite (InstallNewVersionStage2_hang cmd os p d l w Hh).
    exists []. by rewrite app_nil_r.
Qed.

(** The lower-cased path ends in [.msi] exactly when the path ends in some
    casing of [.msi]. *)
Lemma ends_with_transform_towlower p x :
  ends_with (transform_towlower p) x = true
  ↔ ∃ stem ext, p = stem ++ ext ∧ transform_towlower ext = x.
Proof.
  rewrite ends_with_suffix. split.
  - intros [k Hk].
    exists (take (length k) p), (drop (length k) p).
    split; [by rewrite take_drop|].
    unfold transform_towlower in *.
    rewrite <- skipn_map, Hk. by rewrite drop_app_length.
  - intros (stem & ext & -> & <-).
    exists (transform_towlower stem). apply transform_towlower_app.
Qed.

(** C5.  The resolver dispatches on the persisted status.  With status
    [readyToInstall] and a regular file at the path made of the
    pending-updates directory and the persisted file name, it returns
    exactly that path and calls nothing.  With status [readyToInstall] and
    no such file it fails, logging that the downloaded installer was not
    found (MissingDownloadedInstaller), and calls nothing else.  With a
    status outside [readyToDownload], [errorDownloading] and
    [readyToInstall] it fails, logging that the update state was invalid
    (InvalidStateForInstall).  In none of these runs is the metadata or the
    download collaborator invoked. *)
Theorem resolver_dispatches_on_status (os : Env) (w : World) :
  let state := persisted w in
  let installer :=
    path_append os (get_pending_updates_path os)
      (UpdateState.downloadedInstallerFilename state) in
  (UpdateState.state state = UpdateState.readyToInstall →
   is_regular_file (files w) installer = true →
   ObtainInstallerPath os w = (Returns (Some installer), w))
  ∧ (UpdateState.state state = UpdateState.readyToInstall →
     is_regular_file (files w) installer = false →
     ObtainInstallerPath os w
     = (Returns None,
        world_after (persisted w) (files w)
          [ELoggerError (CouldntFindDownloadedInstaller installer)] w))
  ∧ (UpdateState.state state ∉
       [UpdateState.readyToDownload; UpdateState.errorDownloading;
        UpdateState.readyToInstall] →
     ObtainInstallerPath os w
     = (Returns None,
        world_after (persisted w) (files w)
          [ELoggerError UpdateStateWasInvalid] w)).
Proof.
  intros state installer. subst state installer. unfold ObtainInstallerPath.
  split_and!.
  - intros Hs Hf. unfold_M. rewrite Hs.
    rewrite !bool_decide_eq_false_2 by done.
    rewrite bool_decide_eq_true_2 by done. cbn [orb].
    by rewrite Hf.
  - intros Hs Hf. unfold_M. rewrite Hs.
    rewrite !bool_decide_eq_false_2 by done.
    rewrite bool_decide_eq_true_2 by done. cbn [orb].
    rewrite Hf. world_eq.
  - intros Hs. unfold_M.
    rewrite !bool_decide_eq_false_2; [world_eq|..];
      intros Heq; apply Hs; rewrite Heq, !elem_of_cons; auto.
Qed.

(** C6.  Each of the three records the program stores (after a Stage-1
    failure, after a Stage-2 failure, after a Stage-2 success) has a status
    other than [readyToInstall] and an empty file name.  Hence every store
    made in a run of [WinMain] writes a record that satisfies the invariant
    that the file name is populated exactly when the status is
    [readyToInstall], and a run that starts from a persisted record with
    the invariant ends with one. *)
Theorem every_store_preserves_filename_invariant
    (cmd : cmdArg) (cls : wstring) (os : Env)
    (args : option (list wstring)) (w : World) :
  (∀ s0 w0,
     stage1_failure_update s0 w0
     = (Returns (error_downloading_at (clock w0)), w0)
     ∧ stage2_failure_update s0 w0
       = (Returns (error_downloading_at (clock w0)), w0)
     ∧ stage2_success_update s0 w0
       = (Returns (up_to_date_at (clock w0)), w0))
  ∧ (∀ now, filename_cleared (error_downloading_at now)
            ∧ filename_cleared (up_to_date_at now))
  ∧ ∃ es,
      trace (WinMain cmd cls os args w).2 = trace w ++ es
      ∧ (∀ s, EStore s ∈ es →
              filename_cleared s ∧ UpdateState.filename_invariant s)
      ∧ (UpdateState.filename_invariant (persisted w) →
         UpdateState.filename_invariant
           (persisted (WinMain cmd cls os args w).2)).
Proof.
  split_and!.
  - intros s0 w0. split_and!.
    + apply stage1_failure_update_eq.
    + apply stage2_failure_update_eq.
    + apply stage2_success_update_eq.
  - intros now. split.
    + apply filename_cleared_error_downloading_at.
    + apply filename_cleared_up_to_date_at.
  - destruct (WinMain_safe cmd cls os args w) as (es & Ht & HP & Hs).
    exists es. rewrite Forall_forall in HP.
    assert (∀ s, EStore s ∈ es → filename_cleared s) as Hstores.
    { intros s Hin. apply (HP (EStore s) Hin). }
    split_and!; [done| |].
    + intros s Hin. split; [|apply filename_cleared_invariant]; auto.
    + intros Hinv. destruct Hs as [-> | (s & Hin & ->)]; [done|].
      apply filename_cleared_invariant; auto.
Qed.

(** No call of the program sets the installer's user-interface level. *)
Lemma InstallNewVersionStage2_sets_no_ui_level cmd os p d l :
  emits_only sets_no_ui_level (InstallNewVersionStage2 cmd os p d l).
Proof.
  unfold InstallNewVersionStage2. cbv zeta.
  emits; try (by intros ?);
    intros s w; eexists; (split; [apply stage2_success_update_eq|]);
    by intros ?.
Qed.

Lemma InstallNewVersionStage1_sets_no_ui_level cmd cls os :
  emits_only sets_no_ui_level (InstallNewVersionStage1 cmd cls os).
Proof.
  unfold InstallNewVersionStage1.
  apply emits_only_bind.
  { apply (emits_only_weaken is_resolver_event);
      [|apply ObtainInstallerPath_emits].
    by intros [] ? ?. }
  intros [installer|]; [|emits].
  unfold CopySelfToTempDir. cbv zeta. emits; by intros ?.
Qed.

Lemma WinMain_sets_no_ui_level cmd cls os args :
  emits_only sets_no_ui_level (WinMain cmd cls os args).
Proof.
  unfold WinMain. destruct args as [args|]; [|emits].
  cbv zeta. destruct (_ <? _)%nat; [emits|].
  apply emits_only_bind; [emits|]. intros action.
  apply emits_only_bind; [emits; by intros ?|]. intros _.
  destruct (bool_decide (action = _)).
  - apply emits_only_bind; [apply InstallNewVersionStage1_sets_no_ui_level|].
    intros ok. emits. intros s w. eexists.
    split; [apply stage1_failure_update_eq|]. by intros ?.
  - destruct (bool_decide (action = _)); [|emits].
    do 3 (apply emits_only_bind; [emits|]; intros ?).
    apply emits_only_bind; [apply InstallNewVersionStage2_sets_no_ui_level|].
    intros ok. emits. intros s w. eexists.
    split; [apply stage2_failure_update_eq|]. by intros ?.
Qed.

(** C7 (amended).  Stage 2 lower-cases the installer path before anything
    else, so two paths that agree after lower-casing, in particular two
    paths that differ only in the case of their extension, are treated
    identically.  A path whose lower-cased form ends in [.msi] (such as
    [update.msi]) goes to [MsiInstallProductW], called synchronously with a
    null command line, and no bootstrapper is launched; every other path
    is launched as a bootstrapper executable and [MsiInstallProductW] is
    not called.  No run of Stage 2, and no run of the program, sets the
    installer's user-interface level: a silent install is not asked
    for. *)
Theorem installer_dispatch_on_lowercased_extension
    (cmd : cmdArg) (os : Env) :
  (∀ p1 p2 d l w,
     transform_towlower p1 = transform_towlower p2 →
     InstallNewVersionStage2 cmd os p1 d l w
     = InstallNewVersionStage2 cmd os p2 d l w)
  ∧ (∀ stem ext1 ext2 d l w,
       transform_towlower ext1 = transform_towlower ext2 →
       InstallNewVersionStage2 cmd os (stem ++ ext1) d l w
       = InstallNewVersionStage2 cmd os (stem ++ ext2) d l w)
  ∧ (∀ p d l w,
       ends_with (transform_towlower p) (L ".msi") = true →
       ∃ tail,
         trace (InstallNewVersionStage2 cmd os p d l w).2
         = trace w
           ++ EMsiInstallProductW (c_str (transform_towlower p)) None
              :: tail
         ∧ (∀ q, EShellExecuteExW (bootstrapper_sei q) ∉ tail)
         ∧ (∀ q cl, EMsiInstallProductW q cl ∉ tail))
  ∧ (∀ p d l w,
       ends_with (transform_towlower p) (L ".msi") = false →
       ∃ tail,
         trace (InstallNewVersionStage2 cmd os p d l w).2
         = trace w
           ++ EShellExecuteExW (bootstrapper_sei (transform_towlower p))
              :: tail
         ∧ (∀ q, EShellExecuteExW (bootstrapper_sei q) ∉ tail)
         ∧ (∀ q cl, EMsiInstallProductW q cl ∉ tail))
  ∧ (∀ p,
       ends_with (transform_towlower p) (L ".msi") = true
       ↔ ∃ stem ext, p = stem ++ ext ∧ transform_towlower ext = L ".msi")
  ∧ ends_with (transform_towlower (L "update.msi")) (L ".msi") = true
  ∧ (∀ p d l w,
       ∃ es,
         trace (InstallNewVersionStage2 cmd os p d l w).2 = trace w ++ es
         ∧ ∀ level, EMsiSetInternalUI level ∉ es)
  ∧ (∀ cls args w,
       ∃ es,
         trace (WinMain cmd cls os args w).2 = trace w ++ es
         ∧ ∀ level, EMsiSetInternalUI level ∉ es).
Proof.
  assert (∀ p1 p2 d l w,
     transform_towlower p1 = transform_towlower p2 →
     InstallNewVersionStage2 cmd os p1 d l w
     = InstallNewVersionStage2 cmd os p2 d l w) as Hcase.
  { intros p1 p2 d l w Heq. unfold InstallNewVersionStage2. cbv zeta.
    by rewrite Heq. }
  assert (∀ d tail,
     Forall (post_install_event cmd d) tail →
     (∀ q, EShellExecuteExW (bootstrapper_sei q) ∉ tail)
     ∧ (∀ q cl, EMsiInstallProductW q cl ∉ tail)) as Htail.
  { intros d tail Hall. rewrite Forall_forall in Hall.
    split; [intros q Hin|intros q cl Hin]; apply Hall in Hin; cbn in Hin;
      [|done].
    by apply bootstrapper_sei_not_restart_sei in Hin. }
  split_and!.
  - exact Hcase.
  - intros stem ext1 ext2 d l w Heq. apply Hcase.
    rewrite !transform_towlower_app. by rewrite Heq.
  - intros p d l w Hmsi.
    destruct (InstallNewVersionStage2_trace cmd os p d l w)
      as (tail & Ht & Hall).
    exists tail. split; [|by apply (Htail d)].
    rewrite Ht. unfold installer_events. cbv zeta. by rewrite Hmsi.
  - intros p d l w Hmsi.
    destruct (InstallNewVersionStage2_trace cmd os p d l w)
      as (tail & Ht & Hall).
    unfold installer_events in Ht. cbv zeta in Ht. rewrite Hmsi in Ht.
    eexists. split; [rewrite Ht; cbn [app]; reflexivity|].
    apply (Htail d) in Hall as [Hb Hm].
    split; [intros q [Hin|Hin]%elem_of_app|intros q cl [Hin|Hin]%elem_of_app].
    + destruct (ShellExecuteExW _ _); [destruct (GetExitCodeProcess _ _)|];
        repeat (apply elem_of_cons in Hin as [?|Hin]; [done|]);
        by apply not_elem_of_nil in Hin.
    + by apply (Hb q).
    + destruct (ShellExecuteExW _ _); [destruct (GetExitCodeProcess _ _)|];
        repeat (apply elem_of_cons in Hin as [?|Hin]; [done|]);
        by apply not_elem_of_nil in Hin.
    + by apply (Hm q cl).
  - intros p. apply ends_with_transform_towlower.
  - reflexivity.
  - intros p d l w.
    destruct (InstallNewVersionStage2_sets_no_ui_level cmd os p d l w)
      as (es & Ht & Hes & _).
    exists es. split; [done|]. intros level Hin.
    rewrite Forall_forall in Hes. by apply (Hes _ Hin level).
  - intros cls args w.
    destruct (WinMain_sets_no_ui_level cmd cls os args w)
      as (es & Ht & Hes & _).
    exists es. split; [done|]. intros level Hin.
    rewrite Forall_forall in Hes. by apply (Hes _ Hin level).
Qed.

(** ** Close requests and the restart directive *)

(** Shows that an event is not in a trace given piece by piece; [H] covers
    the pieces that are not spelled out. *)
Ltac not_in_trace H :=
  repeat first
    [ apply not_elem_of_nil
    | exact H
    | apply not_elem_of_cons; split; [done|]
    | apply not_elem_of_app; split ].

Lemma close_requests_app es1 es2 :
  close_requests (es1 ++ es2) = close_requests es1 + close_requests es2.
Proof. unfold close_requests. by rewrite filter_app, length_app. Qed.

Lemma close_requests_none (P : Event → Prop) es :
  (∀ e, P e → is_close_request e = false) →
  Forall P es → close_requests es = 0.
Proof.
  intros HP Hes. unfold close_requests.
  induction Hes as [|e es He _ IH]; [done|].
  rewrite filter_cons_False; [done|]. by rewrite (HP e He).
Qed.

Lemma close_requests_cons e es :
  close_requests (e :: es)
  = (if is_close_request e then 1 else 0) + close_requests es.
Proof.
  unfold close_requests. destruct (is_close_request e) eqn:He.
  - by rewrite filter_cons_True.
  - rewrite filter_cons_False; [done|]. by rewrite He.
Qed.

Lemma close_requests_nil : close_requests [] = 0.
Proof. done. Qed.

(** The resolver sends no close request. *)
Lemma ObtainInstallerPath_close_requests os w :
  close_requests (trace (ObtainInstallerPath os w).2)
  = close_requests (trace w).
Proof.
  destruct (ObtainInstallerPath_emits os w) as (es & -> & Hes & _).
  rewrite close_requests_app.
  rewrite (close_requests_none is_resolver_event es); [lia| |done].
  by intros [].
Qed.

Lemma nul_free_c_str s : nul_free (c_str s).
Proof.
  unfold nul_free. induction s as [|c s IH]; cbn; [done|].
  destruct (N.eqb_spec c 0); [done|]. by constructor.
Qed.

Lemma installer_events_no_restart cmd os p d :
  EShellExecuteExW (restart_sei cmd d) ∉ installer_events os p.
Proof.
  unfold installer_events. cbv zeta. intros He.
  destruct (ends_with _ _).
  - by apply list_elem_of_singleton in He.
  - apply elem_of_cons in He as [He|He].
    { assert (bootstrapper_sei (transform_towlower p) = restart_sei cmd d)
        as Heq by congruence.
      by apply bootstrapper_sei_not_restart_sei in Heq. }
    destruct (ShellExecuteExW _ _); [destruct (GetExitCodeProcess _ _)|];
      repeat (apply elem_of_cons in He as [?|He]; [done|]);
      by apply not_elem_of_nil in He.
Qed.

(** C8.  Stage 1, having obtained the installer and copied itself to the
    temporary directory, looks for the host's main window.  When the window
    exists, exactly one close request is sent to it and the arguments
    handed to Stage 2 end in the restart token; when it does not exist, no
    close request is sent and the arguments end in the do-not-restart
    token. *)
Theorem stage1_close_request_and_restart_directive
    (cmd : cmdArg) (cls : wstring) (os : Env)
    (installer : wstring) (w w1 : World) :
  ObtainInstallerPath os w = (Returns (Some installer), w1) →
  let dst_path :=
    path_append os (temp_directory_path os) (L "PowerToys.Update.exe") in
  copy_file_error os (get_module_filename os) dst_path = false →
  let run := InstallNewVersionStage1 cmd cls os w in
  let arguments directive :=
    UPDATE_NOW_LAUNCH_STAGE2 cmd ++ (L " " ++ dquote) ++ c_str installer
    ++ (dquote ++ L " " ++ dquote) ++ get_module_folderpath os
    ++ (dquote ++ L " ") ++ directive in
  let cstrings directive :=
    nul_free (UPDATE_NOW_LAUNCH_STAGE2 cmd)
    ∧ nul_free (get_module_folderpath os) ∧ nul_free directive in
  match FindWindowW os cls with
  | Some hwnd =>
      let sei :=
        stage2_launch_sei dst_path
          (arguments (UPDATE_STAGE2_RESTART_PT cmd)) in
      run.1 = Returns (ShellExecuteExW os sei)
      ∧ trace run.2
        = trace w1
          ++ [ECopyFile (get_module_filename os) dst_path;
              ESendMessageW hwnd WM_CLOSE;
              EShellExecuteExW sei]
      ∧ close_requests (trace run.2) = S (close_requests (trace w))
      ∧ (cstrings (UPDATE_STAGE2_RESTART_PT cmd) →
         lpParameters sei = arguments (UPDATE_STAGE2_RESTART_PT cmd))
  | None =>
      let sei :=
        stage2_launch_sei dst_path
          (arguments (UPDATE_STAGE2_DONT_START_PT cmd)) in
      run.1 = Returns (ShellExecuteExW os sei)
      ∧ trace run.2
        = trace w1
          ++ [ECopyFile (get_module_filename os) dst_path;
              EShellExecuteExW sei]
      ∧ close_requests (trace run.2) = close_requests (trace w)
      ∧ (cstrings (UPDATE_STAGE2_DONT_START_PT cmd) →
         lpParameters sei = arguments (UPDATE_STAGE2_DONT_START_PT cmd))
  end.
Proof.
  intros Hobtain dst_path Hcopy run arguments cstrings.
  assert (close_requests (trace w1) = close_requests (trace w)) as Hclose.
  { rewrite <- (ObtainInstallerPath_close_requests os w).
    by rewrite Hobtain. }
  assert (∀ directive, cstrings directive →
            c_str (arguments directive) = arguments directive) as Hcstr.
  { intros directive (H1 & H2 & H3). apply c_str_nul_free.
    unfold arguments, nul_free in *.
    rewrite !Forall_app.
    split_and!; try done; try apply nul_free_c_str; by repeat constructor. }
  assert (∀ launch, stage2_arguments cmd os installer launch
            = arguments (if launch then UPDATE_STAGE2_RESTART_PT cmd
                         else UPDATE_STAGE2_DONT_START_PT cmd)) as Hargs.
  { intros launch. unfold stage2_arguments, arguments. cbv zeta.
    by rewrite <- !app_assoc. }
  subst run. unfold InstallNewVersionStage1, CopySelfToTempDir.
  unfold_M. rewrite Hobtain. fold dst_path. rewrite Hcopy.
  destruct (FindWindowW os cls) as [hwnd|]; unfold_M.
  - rewrite bool_decide_eq_true_2 by done. rewrite (Hargs true).
    split_and!.
    + done.
    + by rewrite <- !app_assoc.
    + rewrite !close_requests_app, !close_requests_cons, close_requests_nil.
      rewrite Hclose. cbn [is_close_request].
      rewrite ?bool_decide_eq_true_2 by done. lia.
    + intros Hc. cbn [lpParameters stage2_launch_sei]. by apply Hcstr.
  - rewrite bool_decide_eq_false_2 by (by intros [? ?]). rewrite (Hargs false).
    split_and!.
    + done.
    + by rewrite <- !app_assoc.
    + rewrite !close_requests_app, !close_requests_cons, close_requests_nil.
      rewrite Hclose. cbn [is_close_request].
      rewrite ?bool_decide_eq_true_2 by done. lia.
    + intros Hc. cbn [lpParameters stage2_launch_sei]. by apply Hcstr.
Qed.

(** C10.  In a stage-2 invocation the restart directive is the result of
    comparing the fourth argument with the restart token.  Every other
    fourth argument, whether or not it is the do-not-restart token, is
    taken as do-not-restart: the invocation is not rejected, Stage 2 runs
    with [launch_powertoys = false], all such arguments give the same run,
    and that run never launches the host. *)
Theorem stage2_restart_directive_is_equality_test
    (cmd : cmdArg) (cls : wstring) (os : Env)
    (exe p d r : wstring) (rest : list wstring) (w : World) :
  UPDATE_NOW_LAUNCH_STAGE2 cmd ≠ UPDATE_NOW_LAUNCH_STAGE1 cmd →
  r ≠ UPDATE_STAGE2_RESTART_PT cmd →
  let args r :=
    Some (exe :: UPDATE_NOW_LAUNCH_STAGE2 cmd :: p :: d :: r :: rest) in
  let run := WinMain cmd cls os (args r) w in
  let p' := transform_towlower p in
  run = match InstallNewVersionStage2 cmd os p d false
                (log_event ELoggerInit w) with
        | (Returns true, w1) => (Returns 0%Z, w1)
        | (Returns false, w1) =>
            (Returns 1%Z,
             world_after (error_downloading_at (clock w1)) (files w1)
               [EStore (error_downloading_at (clock w1))] w1)
        | (ReadsPastArgs, w1) => (ReadsPastArgs, w1)
        | (WaitsForever, w1) => (WaitsForever, w1)
        end
  ∧ (∀ r', r' ≠ UPDATE_STAGE2_RESTART_PT cmd →
           WinMain cmd cls os (args r') w = run)
  ∧ (∃ es, trace run.2 = trace w ++ es
           ∧ EShellExecuteExW (restart_sei cmd d) ∉ es)
  ∧ (installer_succeeds os p →
     run = (Returns 0%Z,
            world_after (up_to_date_at (clock w))
              (if remove_error os p' then files w
               else remove_file (files w) p')
              ([ELoggerInit] ++ installer_events os p
               ++ [ERemove p'; EStore (up_to_date_at (clock w))])
              w)).
Proof.
  intros Hne Hr args run p'.
  assert (∀ r', r' ≠ UPDATE_STAGE2_RESTART_PT cmd →
     WinMain cmd cls os (args r') w
     = match InstallNewVersionStage2 cmd os p d false
               (log_event ELoggerInit w) with
       | (Returns true, w1) => (Returns 0%Z, w1)
       | (Returns false, w1) =>
           (Returns 1%Z,
            world_after (error_downloading_at (clock w1)) (files w1)
              [EStore (error_downloading_at (clock w1))] w1)
       | (ReadsPastArgs, w1) => (ReadsPastArgs, w1)
       | (WaitsForever, w1) => (WaitsForever, w1)
       end) as Hrun.
  { intros r' Hr'. unfold args. rewrite WinMain_stage2 by done.
    by rewrite bool_decide_eq_false_2 by done. }
  pose proof (installer_events_no_restart cmd os p d) as Hnone.
  split_and!.
  - by apply Hrun.
  - intros r' Hr'. subst run. by rewrite !Hrun.
  - subst run. rewrite (Hrun r Hr).
    destruct (installer_run_cases os p) as [Hok|[Hf|Hh]].
    + rewrite (InstallNewVersionStage2_success cmd os p d false _ Hok).
      unfold_M. eexists. split; [by rewrite <- app_assoc|].
      not_in_trace Hnone.
    + rewrite (InstallNewVersionStage2_failure cmd os p d false _ Hf).
      unfold_M. eexists. split; [by rewrite <- !app_assoc|].
      not_in_trace Hnone.
    + rewrite (InstallNewVersionStage2_hang cmd os p d false _ Hh).
      unfold_M. eexists. split; [by rewrite <- !app_assoc|].
      not_in_trace Hnone.
  - intros Hok. subst run. rewrite (Hrun r Hr).
    rewrite (InstallNewVersionStage2_success cmd os p d false _ Hok).
    world_eq.
Qed.

(** ** Concrete runs *)

(** C1, witness: the bootstrapper [Setup.EXE] exits with 0, the shell
    refuses to start the host again. *)
Lemma restart_failure_is_recorded_as_error_witness :
  let os := sample_os shell_refusing_restart 0 (Some 0%Z) None in
  let run :=
    WinMain sample_cmd sample_window_class os
      (Some [L "PowerToys.Update.exe"; L "-update_now_stage_2";
             L "C:\Updates\Setup.EXE"; L "C:\PowerToys"; L "restart"])
      (sample_world (L "Setup.EXE")) in
  UPDATE_NOW_LAUNCH_STAGE2 sample_cmd ≠ UPDATE_NOW_LAUNCH_STAGE1 sample_cmd
  ∧ installer_succeeds os (L "C:\Updates\Setup.EXE")
  ∧ ShellExecuteExW os (restart_sei sample_cmd (L "C:\PowerToys")) = false
  ∧ run.1 = Returns 1%Z
  ∧ persisted run.2 = error_downloading_at 2000%Z.
Proof.
  intros os run.
  assert (UPDATE_NOW_LAUNCH_STAGE2 sample_cmd
          ≠ UPDATE_NOW_LAUNCH_STAGE1 sample_cmd) as Hne by discriminate.
  assert (installer_succeeds os (L "C:\Updates\Setup.EXE")) as Hok
    by (vm_compute; auto).
  assert (ShellExecuteExW os (restart_sei sample_cmd (L "C:\PowerToys"))
          = false) as Hrestart by reflexivity.
  pose proof (restart_failure_is_recorded_as_error sample_cmd
                sample_window_class os (L "PowerToys.Update.exe")
                (L "C:\Updates\Setup.EXE") (L "C:\PowerToys") []
                (sample_world (L "Setup.EXE")) Hne Hok Hrestart) as Hrun.
  split_and!; [exact Hne|exact Hok|exact Hrestart|..].
  - exact (f_equal fst Hrun).
  - exact (f_equal (λ r, persisted r.2) Hrun).
Defined.

(** C1, counterexample: in that run the installer succeeds, the up-to-date
    record is stored, the restart is refused, and the persisted status at
    the end is not [upToDate]. *)
Lemma restart_failure_does_not_keep_up_to_date :
  let os := sample_os shell_refusing_restart 0 (Some 0%Z) None in
  let run :=
    WinMain sample_cmd sample_window_class os
      (Some [L "PowerToys.Update.exe"; L "-update_now_stage_2";
             L "C:\Updates\Setup.EXE"; L "C:\PowerToys"; L "restart"])
      (sample_world (L "Setup.EXE")) in
  installer_succeeds os (L "C:\Updates\Setup.EXE")
  ∧ ShellExecuteExW os (restart_sei sample_cmd (L "C:\PowerToys")) = false
  ∧ EStore (up_to_date_at 2000%Z) ∈ trace run.2
  ∧ run.1 = Returns 1%Z
  ∧ UpdateState.state (persisted run.2) = UpdateState.errorDownloading
  ∧ UpdateState.state (persisted run.2) ≠ UpdateState.upToDate.
Proof.
  intros os run. split_and!.
  - vm_compute. auto.
  - reflexivity.
  - vm_compute. do 5 apply list_elem_of_further. apply list_elem_of_here.
  - reflexivity.
  - reflexivity.
  - vm_compute. discriminate.
Qed.

(** C2, witness. *)
Lemma unrecognized_action_exits_zero_witness :
  let args := [L "PowerToys.Update.exe"; L "-update_later"] in
  let w := sample_world (L "Setup.EXE") in
  args !! 1 = Some (L "-update_later")
  ∧ L "-update_later" ≠ UPDATE_NOW_LAUNCH_STAGE1 sample_cmd
  ∧ L "-update_later" ≠ UPDATE_NOW_LAUNCH_STAGE2 sample_cmd
  ∧ WinMain sample_cmd sample_window_class
      (sample_os (λ _, true) 0 (Some 0%Z) None) (Some args) w
    = (Returns 0%Z, world_after (persisted w) (files w) [ELoggerInit] w).
Proof.
  intros args w. split_and!; [reflexivity|discriminate|discriminate|].
  apply (unrecognized_action_exits_zero sample_cmd sample_window_class
           _ args (L "-update_later") w);
    [reflexivity|discriminate|discriminate].
Defined.

(** C2, counterexample: an unrecognized action does not give exit code 1. *)
Lemma unrecognized_action_does_not_exit_1 :
  let args := [L "PowerToys.Update.exe"; L "-update_later"] in
  let run :=
    WinMain sample_cmd sample_window_class
      (sample_os (λ _, true) 0 (Some 0%Z) None) (Some args)
      (sample_world (L "Setup.EXE")) in
  args !! 1 = Some (L "-update_later")
  ∧ L "-update_later" ≠ UPDATE_NOW_LAUNCH_STAGE1 sample_cmd
  ∧ L "-update_later" ≠ UPDATE_NOW_LAUNCH_STAGE2 sample_cmd
  ∧ run.1 = Returns 0%Z
  ∧ run.1 ≠ Returns 1%Z.
Proof.
  intros args run.
  split_and!; [reflexivity|discriminate|discriminate|reflexivity|].
  vm_compute. discriminate.
Qed.

(** C3, witness: an [.msi] package that installs, on a machine where the
    removal works. *)
Lemma stage2_stores_up_to_date_only_after_success_witness :
  let os := sample_os (λ _, true) 0 None None in
  let w := sample_world (L "Update.MSI") in
  let w' :=
    (InstallNewVersionStage2 sample_cmd os (L "C:\Updates\Update.MSI")
       (L "C:\PowerToys") false w).2 in
  installer_succeeds os (L "C:\Updates\Update.MSI")
  ∧ remove_error os (L "c:\updates\update.msi") = false
  ∧ persisted w' = up_to_date_at 2000%Z
  ∧ is_regular_file (files w') (L "C:\Updates\Update.MSI") = false.
Proof.
  intros os w w'.
  assert (installer_succeeds os (L "C:\Updates\Update.MSI")) as Hok
    by reflexivity.
  destruct (stage2_stores_up_to_date_only_after_success sample_cmd os
              (L "C:\Updates\Update.MSI") (L "C:\PowerToys") false w)
    as [Hsuccess _].
  destruct (Hsuccess Hok) as (Hp & _ & Hf & _).
  split_and!; [exact Hok|reflexivity|exact Hp|].
  apply Hf. reflexivity.
Defined.

(** C3, counterexample: the package installs, but the installer file is
    held open and its removal fails.  The up-to-date record is stored and
    the installer file is still there. *)
Lemma failed_removal_leaves_the_installer_on_disk :
  let os := with_failing_removal (sample_os (λ _, true) 0 None None) in
  let w := sample_world (L "Update.MSI") in
  let run :=
    InstallNewVersionStage2 sample_cmd os (L "C:\Updates\Update.MSI")
      (L "C:\PowerToys") false w in
  installer_succeeds os (L "C:\Updates\Update.MSI")
  ∧ run.1 = Returns true
  ∧ persisted run.2 = up_to_date_at 2000%Z
  ∧ ERemove (L "c:\updates\update.msi") ∈ trace run.2
  ∧ is_regular_file (files run.2) (L "C:\Updates\Update.MSI") = true
  ∧ is_regular_file (files run.2) (L "C:\Updates\Update.MSI") ≠ false.
Proof.
  intros os w run. split_and!.
  - reflexivity.
  - reflexivity.
  - reflexivity.
  - vm_compute. apply list_elem_of_further, list_elem_of_here.
  - reflexivity.
  - vm_compute. discriminate.
Qed.

(** C4, witness: the bootstrapper exits with 1603. *)
Lemma stage2_failure_keeps_installer_and_records_error_witness :
  let os := sample_os (λ _, true) 0 (Some 1603%Z) None in
  let w := sample_world (L "Setup.EXE") in
  let run :=
    WinMain sample_cmd sample_window_class os
      (Some [L "PowerToys.Update.exe"; L "-update_now_stage_2";
             L "C:\Updates\Setup.EXE"; L "C:\PowerToys"; L "restart"]) w in
  UPDATE_NOW_LAUNCH_STAGE2 sample_cmd ≠ UPDATE_NOW_LAUNCH_STAGE1 sample_cmd
  ∧ installer_fails os (L "C:\Updates\Setup.EXE")
  ∧ run.1 = Returns 1%Z
  ∧ persisted run.2 = error_downloading_at 2000%Z
  ∧ files run.2 = files w.
Proof.
  intros os w run.
  assert (UPDATE_NOW_LAUNCH_STAGE2 sample_cmd
          ≠ UPDATE_NOW_LAUNCH_STAGE1 sample_cmd) as Hne by discriminate.
  assert (installer_fails os (L "C:\Updates\Setup.EXE")) as Hf.
  { right. exists 1603%Z. split_and!; [reflexivity|reflexivity|discriminate]. }
  destruct (stage2_failure_keeps_installer_and_records_error sample_cmd
              sample_window_class os (L "PowerToys.Update.exe")
              (L "C:\Updates\Setup.EXE") (L "C:\PowerToys") (L "restart") []
              w Hne Hf) as (_ & _ & Hrun).
  split_and!; [exact Hne|exact Hf|..].
  - exact (f_equal fst Hrun).
  - exact (f_equal (λ r, persisted r.2) Hrun).
  - exact (f_equal (λ r, files r.2) Hrun).
Defined.

(** C8, witness: the tray window exists. *)
Lemma stage1_close_request_and_restart_directive_witness :
  let os := sample_os (λ _, true) 0 None (Some 7%Z) in
  let w := sample_world (L "Setup.EXE") in
  let run := InstallNewVersionStage1 sample_cmd sample_window_class os w in
  ObtainInstallerPath os w = (Returns (Some (L "C:\Updates\Setup.EXE")), w)
  ∧ copy_file_error os (get_module_filename os)
      (L "C:\Temp\PowerToys.Update.exe") = false
  ∧ close_requests (trace run.2) = 1
  ∧ ∃ sei,
      last (trace run.2) = Some (EShellExecuteExW sei)
      ∧ lpParameters sei
        = L "-update_now_stage_2 " ++ dquote ++ L "C:\Updates\Setup.EXE"
          ++ dquote ++ L " " ++ dquote ++ L "C:\PowerToys" ++ dquote
          ++ L " restart".
Proof.
  intros os w run.
  assert (ObtainInstallerPath os w
          = (Returns (Some (L "C:\Updates\Setup.EXE")), w)) as Hobtain
    by reflexivity.
  assert (copy_file_error os (get_module_filename os)
            (path_append os (temp_directory_path os)
               (L "PowerToys.Update.exe")) = false) as Hcopy
    by reflexivity.
  pose proof (stage1_close_request_and_restart_directive sample_cmd
                sample_window_class os _ w w Hobtain Hcopy) as H.
  cbv zeta in H.
  change (FindWindowW os sample_window_class) with (Some 7%Z) in H.
  destruct H as (_ & Htrace & Hclose & Hparams).
  split_and!; [exact Hobtain|reflexivity|exact Hclose|].
  eexists. split.
  - subst run. rewrite Htrace. reflexivity.
  - rewrite Hparams; [reflexivity|].
    split_and!; by repeat constructor.
Defined.

(** C9, witness: only the action is supplied. *)
Lemma stage2_with_missing_arguments_reads_past_end_witness :
  let args := [L "PowerToys.Update.exe"; L "-update_now_stage_2"] in
  let w := sample_world (L "Setup.EXE") in
  args !! 1 = Some (UPDATE_NOW_LAUNCH_STAGE2 sample_cmd)
  ∧ UPDATE_NOW_LAUNCH_STAGE2 sample_cmd ≠ UPDATE_NOW_LAUNCH_STAGE1 sample_cmd
  ∧ length args < 5
  ∧ WinMain sample_cmd sample_window_class
      (sample_os (λ _, true) 0 (Some 0%Z) None) (Some args) w
    = (ReadsPastArgs, world_after (persisted w) (files w) [ELoggerInit] w).
Proof.
  intros args w. split_and!; [reflexivity|discriminate|cbn; lia|].
  apply (stage2_with_missing_arguments_reads_past_end sample_cmd
           sample_window_class _ args w);
    [reflexivity|discriminate|cbn; lia].
Defined.

(** C10, witness: the directive [maybe] is neither token. *)
Lemma stage2_restart_directive_is_equality_test_witness :
  let os := sample_os (λ _, true) 0 (Some 0%Z) None in
  let w := sample_world (L "Setup.EXE") in
  let run :=
    WinMain sample_cmd sample_window_class os
      (Some [L "PowerToys.Update.exe"; L "-update_now_stage_2";
             L "C:\Updates\Setup.EXE"; L "C:\PowerToys"; L "maybe"]) w in
  UPDATE_NOW_LAUNCH_STAGE2 sample_cmd ≠ UPDATE_NOW_LAUNCH_STAGE1 sample_cmd
  ∧ L "maybe" ≠ UPDATE_STAGE2_RESTART_PT sample_cmd
  ∧ L "maybe" ≠ UPDATE_STAGE2_DONT_START_PT sample_cmd
  ∧ installer_succeeds os (L "C:\Updates\Setup.EXE")
  ∧ run.1 = Returns 0%Z
  ∧ persisted run.2 = up_to_date_at 2000%Z.
Proof.
  intros os w run.
  assert (UPDATE_NOW_LAUNCH_STAGE2 sample_cmd
          ≠ UPDATE_NOW_LAUNCH_STAGE1 sample_cmd) as Hne by discriminate.
  assert (L "maybe" ≠ UPDATE_STAGE2_RESTART_PT sample_cmd) as Hr
    by discriminate.
  assert (installer_succeeds os (L "C:\Updates\Setup.EXE")) as Hok
    by (vm_compute; auto).
  destruct (stage2_restart_directive_is_equality_test sample_cmd
              sample_window_class os (L "PowerToys.Update.exe")
              (L "C:\Updates\Setup.EXE") (L "C:\PowerToys") (L "maybe") []
              w Hne Hr) as (_ & _ & _ & Hrun).
  split_and!; [exact Hne|exact Hr|discriminate|exact Hok|..].
  - exact (f_equal fst (Hrun Hok)).
  - exact (f_equal (λ r, persisted r.2) (Hrun Hok)).
Defined.

(** C5, witness: the downloaded installer is on disk (under another
    casing of its name), then it is missing, then the status is
    [upToDate]. *)
Lemma resolver_dispatches_on_status_witness :
  let os := sample_os (λ _, true) 0 None None in
  let w := sample_world (L "Setup.EXE") in
  let missing := set_files [] w in
  let idle := set_persisted UpdateState.default w in
  is_regular_file (files w) (L "c:\updates\setup.exe") = true
  ∧ ObtainInstallerPath os w = (Returns (Some (L "C:\Updates\Setup.EXE")), w)
  ∧ (ObtainInstallerPath os missing).1 = Returns None
  ∧ trace (ObtainInstallerPath os missing).2
    = [ELoggerError
         (CouldntFindDownloadedInstaller (L "C:\Updates\Setup.EXE"))]
  ∧ (ObtainInstallerPath os idle).1 = Returns None
  ∧ trace (ObtainInstallerPath os idle).2
    = [ELoggerError UpdateStateWasInvalid].
Proof.
  intros os w missing idle.
  destruct (resolver_dispatches_on_status os w) as (Hfound & _ & _).
  destruct (resolver_dispatches_on_status os missing) as (_ & Hmissing & _).
  destruct (resolver_dispatches_on_status os idle) as (_ & _ & Hinvalid).
  assert (UpdateState.state (persisted idle) ∉
            [UpdateState.readyToDownload; UpdateState.errorDownloading;
             UpdateState.readyToInstall]) as Hidle.
  { cbn. rewrite !elem_of_cons.
    intros [?|[?|[?|?%not_elem_of_nil]]]; done. }
  split_and!.
  - reflexivity.
  - apply Hfound; reflexivity.
  - exact (f_equal fst (Hmissing eq_refl eq_refl)).
  - exact (f_equal (λ r, trace r.2) (Hmissing eq_refl eq_refl)).
  - exact (f_equal fst (Hinvalid Hidle)).
  - exact (f_equal (λ r, trace r.2) (Hinvalid Hidle)).
Defined.

(** C7, witness: [Update.MSI] and [update.msi] are treated alike and go to
    the MSI service; [Setup.EXE] is launched as a bootstrapper. *)
Lemma installer_dispatch_on_lowercased_extension_witness :
  let os := sample_os (λ _, true) 0 (Some 0%Z) None in
  let w := sample_world (L "Update.MSI") in
  let stage2 p :=
    InstallNewVersionStage2 sample_cmd os p (L "C:\PowerToys") false w in
  stage2 (L "C:\Updates\Update" ++ L ".MSI")
  = stage2 (L "C:\Updates\Update" ++ L ".msi")
  ∧ (∃ tail,
       trace (stage2 (L "C:\Updates\Update.MSI")).2
       = EMsiInstallProductW (L "c:\updates\update.msi") None :: tail)
  ∧ (∃ tail,
       trace (stage2 (L "C:\Updates\Setup.EXE")).2
       = EShellExecuteExW (bootstrapper_sei (L "c:\updates\setup.exe"))
         :: tail).
Proof.
  intros os w stage2.
  destruct (installer_dispatch_on_lowercased_extension sample_cmd os)
    as (_ & Hext & Hmsi & Hboot & _).
  split_and!.
  - apply Hext. reflexivity.
  - destruct (Hmsi (L "C:\Updates\Update.MSI") (L "C:\PowerToys") false w
                eq_refl) as (tail & Ht & _).
    exists tail. exact Ht.
  - destruct (Hboot (L "C:\Updates\Setup.EXE") (L "C:\PowerToys") false w
                eq_refl) as (tail & Ht & _).
    exists tail. exact Ht.
Defined.

(** C7, counterexample: the whole run of the process on [update.msi].
    The package goes to [MsiInstallProductW] with a null command line, and
    no call before it sets a user-interface level: the install is not a
    silent one. *)
Lemma msi_install_is_not_asked_to_be_silent :
  let os := sample_os (λ _, true) 0 None None in
  let run :=
    WinMain sample_cmd sample_window_class os
      (Some [L "PowerToys.Update.exe"; L "-update_now_stage_2";
             L "C:\Updates\update.msi"; L "C:\PowerToys"; L "dont_start"])
      (sample_world (L "update.msi")) in
  ends_with (transform_towlower (L "C:\Updates\update.msi")) (L ".msi")
  = true
  ∧ run.1 = Returns 0%Z
  ∧ trace run.2
    = [ELoggerInit;
       EMsiInstallProductW (L "c:\updates\update.msi") None;
       ERemove (L "c:\updates\update.msi");
       EStore (up_to_date_at 2000%Z)]
  ∧ ui_level_set [ELoggerInit] = None
  ∧ ¬ silent_msi_install (trace run.2).
Proof.
  intros os run. split_and!; [reflexivity..|].
  intros Hsilent.
  specialize (Hsilent [ELoggerInit] (L "c:\updates\update.msi") None
                [ERemove (L "c:\updates\update.msi");
                 EStore (up_to_date_at 2000%Z)] eq_refl).
  discriminate Hsilent.
Qed.

(** ** Runs that return in the embedding *)

(** With the calls into the system answered by oracles, the resolver and
    Stage 1 return in every run of the embedding.  This is used to follow
    the clock through a run; no property of the program is drawn from
    it. *)

Section Steady.

Context {A B : Type}.

Lemma steady_ret (a : A) : steady (mret a).
Proof. intros w. by exists a. Qed.

Lemma steady_bind (m : M A) (f : A → M B) :
  steady m → (∀ a, steady (f a)) → steady (m ≫= f).
Proof.
  intros Hm Hf w. destruct (Hm w) as (a & Ha & Hc).
  unfold mbind, M_bind. destruct (m w) as [o w1]; cbn [fst snd] in *.
  subst o. destruct (Hf a w1) as (b & Hb & Hc'). exists b.
  split; [done|]. by rewrite Hc'.
Qed.

(** An operation given by its result and its world, clock kept. *)
Lemma steady_total (m : M A) :
  (∀ w, ∃ a w', m w = (Returns a, w') ∧ clock w' = clock w) → steady m.
Proof. intros Hm w. destruct (Hm w) as (a & w' & -> & Hc). by exists a. Qed.

Lemma returns_only_ret (Q : A → Prop) (a : A) :
  Q a → returns_only Q (mret a).
Proof. intros Ha w a' [= <-]. done. Qed.

Lemma returns_only_bind (Q : B → Prop) (m : M A) (f : A → M B) :
  (∀ a, returns_only Q (f a)) → returns_only Q (m ≫= f).
Proof.
  intros Hf w b. unfold mbind, M_bind.
  destruct (m w) as [[a| |] w1]; cbn [fst]; [apply Hf|done..].
Qed.

End Steady.

Ltac steady_step :=
  lazymatch goal with
  | |- steady (mret _) => apply steady_ret
  | |- steady (mbind _ _) => apply steady_bind; [|intros ?]
  | |- steady (if ?b then _ else _) => destruct b
  | |- steady (match ?x with _ => _ end) => destruct x
  | |- steady _ =>
      apply steady_total; intros ?; eexists _, _; split; reflexivity
  end.

Section SteadyProgram.

Variable cmd : cmdArg.
Variable cls : wstring.
Variable os : Env.

Lemma ObtainInstallerPath_steady : steady (ObtainInstallerPath os).
Proof.
  unfold ObtainInstallerPath, get_github_version_info_async_get, when,
    Logger_error.
  repeat steady_step.
Qed.

Lemma InstallNewVersionStage1_steady :
  steady (InstallNewVersionStage1 cmd cls os).
Proof.
  unfold InstallNewVersionStage1.
  apply steady_bind; [apply ObtainInstallerPath_steady|].
  intros [installer|]; [|repeat steady_step].
  unfold CopySelfToTempDir, ShellExecuteExW_call. cbv zeta.
  repeat steady_step.
Qed.

(** Stage 1 only makes the calls of [is_stage1_event]. *)
Lemma InstallNewVersionStage1_emits :
  emits_only is_stage1_event (InstallNewVersionStage1 cmd cls os).
Proof.
  unfold InstallNewVersionStage1.
  apply emits_only_bind.
  { apply (emits_only_weaken is_resolver_event);
      [|apply ObtainInstallerPath_emits].
    by intros []. }
  intros [installer|]; [|emits].
  unfold CopySelfToTempDir. cbv zeta. emits; done.
Qed.

(** With the stage-1 token, [WinMain] initialises the logger, runs Stage 1
    and records a failure; what follows the token is not looked at. *)
Lemma WinMain_stage1 args w :
  args !! 1 = Some (UPDATE_NOW_LAUNCH_STAGE1 cmd) →
  WinMain cmd cls os (Some args) w
  = match InstallNewVersionStage1 cmd cls os (log_event ELoggerInit w) with
    | (Returns true, w1) => (Returns 0%Z, w1)
    | (Returns false, w1) =>
        (Returns 1%Z,
         world_after (error_downloading_at (clock w1)) (files w1)
           [EStore (error_downloading_at (clock w1))] w1)
    | (ReadsPastArgs, w1) => (ReadsPastArgs, w1)
    | (WaitsForever, w1) => (WaitsForever, w1)
    end.
Proof.
  intros Hact. unfold WinMain.
  destruct args as [|exe [|a args]]; [done..|].
  injection Hact as ->.
  cbn [length Nat.ltb Nat.leb]. unfold_M. cbn [lookup list_lookup].
  rewrite bool_decide_eq_true_2 by done.
  destruct (InstallNewVersionStage1 _ _ _ _) as [[[]| |] w1]; world_eq.
Qed.

(** Stage 1 in terms of what the resolver returned. *)
Lemma InstallNewVersionStage1_after_resolver w :
  InstallNewVersionStage1 cmd cls os w
  = match ObtainInstallerPath os w with
    | (Returns None, w1) => (Returns false, w1)
    | (Returns (Some installer), w1) =>
        let src := get_module_filename os in
        let dst :=
          path_append os (temp_directory_path os)
            (L "PowerToys.Update.exe") in
        if copy_file_error os src dst
        then (Returns false,
              world_after (persisted w1) (files w1) [ECopyFile src dst] w1)
        else
          let window := FindWindowW os cls in
          let sei :=
            stage2_launch_sei dst
              (stage2_arguments cmd os installer
                 (bool_decide (is_Some window))) in
          (Returns (ShellExecuteExW os sei),
           world_after (persisted w1) (dst :: remove_file (files w1) dst)
             ([ECopyFile src dst]
              ++ match window with
                 | Some hwnd => [ESendMessageW hwnd WM_CLOSE]
                 | None => []
                 end
              ++ [EShellExecuteExW sei])
             w1)
    | (ReadsPastArgs, w1) => (ReadsPastArgs, w1)
    | (WaitsForever, w1) => (WaitsForever, w1)
    end.
Proof.
  unfold InstallNewVersionStage1, CopySelfToTempDir. unfold_M.
  destruct (ObtainInstallerPath os w) as [[[installer|]| |] w1]; try done.
  destruct (copy_file_error _ _ _); [world_eq|].
  destruct (FindWindowW os cls); world_eq.
Qed.

End SteadyProgram.

(** ** Counting calls *)

Section Counting.

Variable f : Event → bool.

Lemma count_app es1 es2 :
  length (filter (λ e, f e = true) (es1 ++ es2))
  = length (filter (λ e, f e = true) es1)
    + length (filter (λ e, f e = true) es2).
Proof. by rewrite filter_app, length_app. Qed.

Lemma count_cons e es :
  length (filter (λ e, f e = true) (e :: es))
  = (if f e then 1 else 0) + length (filter (λ e, f e = true) es).
Proof.
  destruct (f e) eqn:He.
  - by rewrite filter_cons_True.
  - rewrite filter_cons_False; [done|]. by rewrite He.
Qed.

Lemma count_none (P : Event → Prop) es :
  (∀ e, P e → f e = false) →
  Forall P es → length (filter (λ e, f e = true) es) = 0.
Proof.
  intros HP Hes. induction Hes as [|e es He _ IH]; [done|].
  by rewrite count_cons, (HP e He), IH.
Qed.

End Counting.

(** Evaluates a count over a trace given piece by piece. *)
Ltac count_events :=
  unfold error_lines, process_launches, close_requests;
  repeat first [rewrite count_app | rewrite count_cons];
  cbn [filter list_filter length is_error_line is_process_launch
       is_close_request].

(** The resolver neither launches anything nor asks a window to close, and
    it leaves the persisted record alone. *)
Lemma ObtainInstallerPath_quiet os w :
  ∃ es,
    trace (ObtainInstallerPath os w).2 = trace w ++ es
    ∧ process_launches es = 0
    ∧ close_requests es = 0
    ∧ persisted (ObtainInstallerPath os w).2 = persisted w.
Proof.
  destruct (ObtainInstallerPath_emits os w) as (es & Ht & Hes & Hp).
  exists es. split_and!; [done|..].
  - apply (count_none _ is_resolver_event); [by intros []|done].
  - apply (count_none _ is_resolver_event); [by intros []|done].
  - destruct Hp as [Hp|(s & Hin & _)]; [done|].
    rewrite Forall_forall in Hes. by apply Hes in Hin.
Qed.

(** ** The entry point without an action; the resolver when it downloads *)

(** X1.  Without an action argument (a null argument vector, or fewer
    than two arguments) [WinMain] exits with code 1 before doing anything:
    the logger is not initialised, nothing is stored, removed or
    launched. *)
Theorem WinMain_without_action_exits_1
    (cmd : cmdArg) (cls : wstring) (os : Env) (w : World) :
  WinMain cmd cls os None w = (Returns 1%Z, w)
  ∧ ∀ args, length args < 2 →
            WinMain cmd cls os (Some args) w = (Returns 1%Z, w).
Proof.
  split; [done|]. intros args Hlen. unfold WinMain.
  destruct args as [|exe [|a args]]; [done..|]. cbn in Hlen. lia.
Qed.

(** X1, witness: only the program name is there. *)
Lemma WinMain_without_action_exits_1_witness :
  let w := sample_world (L "Setup.EXE") in
  length [L "PowerToys.Update.exe"] < 2
  ∧ WinMain sample_cmd sample_window_class
      (sample_os (λ _, true) 0 (Some 0%Z) None)
      (Some [L "PowerToys.Update.exe"]) w
    = (Returns 1%Z, w).
Proof.
  intros w. split; [cbn; lia|].
  destruct (WinMain_without_action_exits_1 sample_cmd sample_window_class
              (sample_os (λ _, true) 0 (Some 0%Z) None) w) as [_ H].
  apply H. cbn. lia.
Defined.

(** X2.  With status [readyToDownload] or [errorDownloading] the resolver
    asks for the release metadata first.  When that fails, or when it
    offers no new version, the resolver fails with the matching error line
    and the download is not attempted.  Otherwise the download is
    attempted once: its path is returned as it is, or, when it fails, the
    resolver fails with an error line.  The persisted file name plays no
    part. *)
Theorem resolver_download_branch (os : Env) (w : World) :
  UpdateState.state (persisted w) = UpdateState.readyToDownload
  ∨ UpdateState.state (persisted w) = UpdateState.errorDownloading →
  let run := ObtainInstallerPath os w in
  match get_github_version_info_async os with
  | inl error =>
      run.1 = Returns None
      ∧ trace run.2
        = trace w ++ [EGetGithubVersionInfo;
                      ELoggerError (CouldntObtainGithubVersionInfo error)]
  | inr version_up_to_date =>
      run.1 = Returns None
      ∧ trace run.2
        = trace w ++ [EGetGithubVersionInfo;
                      ELoggerError NoUpdateWasAvailable]
  | inr (new_version info) =>
      match download_new_version os info with
      | Some installer =>
          run.1 = Returns (Some installer)
          ∧ trace run.2
            = trace w ++ [EGetGithubVersionInfo; EDownloadNewVersion info]
      | None =>
          run.1 = Returns None
          ∧ trace run.2
            = trace w ++ [EGetGithubVersionInfo; EDownloadNewVersion info;
                          ELoggerError CouldntDownloadNewInstaller]
      end
  end.
Proof.
  intros Hs run. subst run. unfold ObtainInstallerPath. unfold_M.
  assert (bool_decide
            (UpdateState.state (persisted w) = UpdateState.readyToDownload)
          || bool_decide
               (UpdateState.state (persisted w)
                = UpdateState.errorDownloading) = true) as ->.
  { apply orb_true_iff. rewrite !bool_decide_eq_true. done. }
  destruct (get_github_version_info_async os) as [error|[info|]]; unfold_M.
  - by rewrite <- app_assoc.
  - destruct (download_new_version os info) as [installer|]; unfold_M;
      cbn [bool_decide decide_rel is_Some_dec]; unfold_M;
      by rewrite <- ?app_assoc.
  - by rewrite <- app_assoc.
Qed.

(** X2, witness: the download arrives in the pending-updates directory. *)
Lemma resolver_download_branch_witness :
  let os :=
    sample_os_offering (Some (L "C:\Updates\PowerToysSetup-x64.exe"))
      false None (λ _, true) in
  let run := ObtainInstallerPath os sample_world_to_download in
  (UpdateState.state (persisted sample_world_to_download)
   = UpdateState.readyToDownload
   ∨ UpdateState.state (persisted sample_world_to_download)
     = UpdateState.errorDownloading)
  ∧ run.1 = Returns (Some (L "C:\Updates\PowerToysSetup-x64.exe"))
  ∧ trace run.2
    = [EGetGithubVersionInfo;
       EDownloadNewVersion (DownloadInfo (L "PowerToysSetup-x64.exe"))].
Proof.
  intros os run.
  assert (UpdateState.state (persisted sample_world_to_download)
          = UpdateState.readyToDownload
          ∨ UpdateState.state (persisted sample_world_to_download)
            = UpdateState.errorDownloading) as Hs by (left; reflexivity).
  split; [exact Hs|].
  exact (resolver_download_branch os sample_world_to_download Hs).
Defined.

(** The runs of the resolver, with what each one logs. *)
Lemma ObtainInstallerPath_runs (os : Env) (w : World) :
  let run := ObtainInstallerPath os w in
  ∃ result es,
    run.1 = Returns result
    ∧ trace run.2 = trace w ++ es
    ∧ persisted run.2 = persisted w
    ∧ process_launches es = 0
    ∧ error_lines es = match result with Some _ => 0 | None => 1 end.
Proof.
  intros run. subst run. unfold ObtainInstallerPath. unfold_M.
  destruct (bool_decide _ || bool_decide _).
  - destruct (get_github_version_info_async os) as [error|[info|]];
      unfold_M;
      [|destruct (download_new_version os info) as [installer|]; unfold_M;
        cbn [bool_decide decide_rel is_Some_dec]; unfold_M|];
      eexists _, _;
      (split_and!; [reflexivity|by rewrite <- ?app_assoc|done|..]);
      reflexivity.
  - destruct (bool_decide _); unfold_M.
    + destruct (is_regular_file _ _); unfold_M.
      * exists (Some (path_append os (get_pending_updates_path os)
                        (UpdateState.downloadedInstallerFilename
                           (persisted w)))), [].
        by rewrite app_nil_r.
      * eexists _, _.
        (split_and!; [reflexivity|reflexivity|done|..]); reflexivity.
    + eexists _, _.
      (split_and!; [reflexivity|reflexivity|done|..]); reflexivity.
Qed.

(** X3.  Whenever the resolver returns, it has launched nothing and has
    left the persisted record alone, and it has logged exactly one error
    line if it returns no path and none if it returns one. *)
Theorem resolver_logs_one_error_line_per_failure
    (os : Env) (w : World) (result : option wstring) :
  let run := ObtainInstallerPath os w in
  run.1 = Returns result →
  ∃ es,
    trace run.2 = trace w ++ es
    ∧ persisted run.2 = persisted w
    ∧ process_launches es = 0
    ∧ error_lines es = match result with Some _ => 0 | None => 1 end.
Proof.
  intros run Hrun. subst run.
  destruct (ObtainInstallerPath_runs os w) as (r & es & Hr & Ht & Hp & Hl & He).
  rewrite Hr in Hrun. injection Hrun as ->.
  by exists es.
Qed.

(** X3, witness: the downloaded installer is missing. *)
Lemma resolver_logs_one_error_line_per_failure_witness :
  let os := sample_os (λ _, true) 0 None None in
  let w := set_files [] (sample_world (L "Setup.EXE")) in
  let run := ObtainInstallerPath os w in
  run.1 = Returns None
  ∧ ∃ es, trace run.2 = trace w ++ es ∧ error_lines es = 1.
Proof.
  intros os w run.
  assert (run.1 = Returns None) as Hrun by reflexivity.
  split; [exact Hrun|].
  destruct (resolver_logs_one_error_line_per_failure os w None Hrun)
    as (es & Ht & _ & _ & He).
  exists es. split; [exact Ht|exact He].
Defined.

(** ** Stage 1 *)

Section Stage1.

Variable cmd : cmdArg.
Variable cls : wstring.
Variable os : Env.

(** X4.  Stage 1 gives up before it touches the host when it has no
    installer or cannot copy itself: it returns [false] at once, no close
    request is sent and nothing is launched.  Without an installer not even
    the copy is attempted. *)
Theorem stage1_gives_up_before_touching_the_host (w : World) :
  let resolved := ObtainInstallerPath os w in
  let run := InstallNewVersionStage1 cmd cls os w in
  let src := get_module_filename os in
  let dst :=
    path_append os (temp_directory_path os) (L "PowerToys.Update.exe") in
  (resolved.1 = Returns None → run = (Returns false, resolved.2))
  ∧ (∀ installer,
       resolved.1 = Returns (Some installer) →
       copy_file_error os src dst = true →
       run = (Returns false,
              world_after (persisted w) (files resolved.2)
                [ECopyFile src dst] resolved.2))
  ∧ (resolved.1 = Returns None ∨ copy_file_error os src dst = true →
     run.1 = Returns false
     ∧ close_requests (trace run.2) = close_requests (trace w)
     ∧ process_launches (trace run.2) = process_launches (trace w)).
Proof.
  intros resolved run src dst. subst resolved run.
  rewrite InstallNewVersionStage1_after_resolver. cbv zeta. fold src dst.
  destruct (ObtainInstallerPath_quiet os w) as (es & Ht & Hl & Hc & Hp).
  destruct (ObtainInstallerPath_steady os w) as (r & Hr & _).
  destruct (ObtainInstallerPath os w) as [o w1]. cbn [fst snd] in *.
  subst o. split_and!.
  - by intros [= ->].
  - intros installer [= ->] ->. by rewrite Hp.
  - assert (close_requests (trace w1) = close_requests (trace w)
            ∧ process_launches (trace w1) = process_launches (trace w))
      as [Hc1 Hl1].
    { rewrite Ht. unfold close_requests, process_launches in *.
      rewrite !count_app. lia. }
    intros [[= ->]|Hcopy]; [done|].
    destruct r as [installer|]; [|done].
    rewrite Hcopy. cbn [fst snd world_after trace].
    unfold close_requests, process_launches in Hc1, Hl1.
    split_and!; [done|..]; count_events; lia.
Qed.

(** X5.  Stage 1 returns [true] exactly when the resolver returned an
    installer, the self-copy was made, and the shell accepted the launch of
    that copy with the Stage-2 arguments. *)
Theorem stage1_succeeds_iff (w : World) :
  let dst :=
    path_append os (temp_directory_path os) (L "PowerToys.Update.exe") in
  (InstallNewVersionStage1 cmd cls os w).1 = Returns true
  ↔ ∃ installer,
      (ObtainInstallerPath os w).1 = Returns (Some installer)
      ∧ copy_file_error os (get_module_filename os) dst = false
      ∧ ShellExecuteExW os
          (stage2_launch_sei dst
             (stage2_arguments cmd os installer
                (bool_decide (is_Some (FindWindowW os cls))))) = true.
Proof.
  intros dst. rewrite InstallNewVersionStage1_after_resolver. cbv zeta.
  fold dst.
  destruct (ObtainInstallerPath os w) as [[[installer|]| |] w1];
    cbn [fst snd].
  - destruct (copy_file_error _ _ _); cbn [fst].
    + split; [done|]. by intros (i & _ & ? & _).
    + split.
      * intros [= H]. by exists installer.
      * intros (i & [= <-] & _ & ->). done.
  - split; [done|]. by intros (i & ? & _).
  - split; [done|]. by intros (i & ? & _).
  - split; [done|]. by intros (i & ? & _).
Qed.

(** The trace of Stage 1: the calls of the resolver, then at most one
    close request and at most one launch. *)
Lemma InstallNewVersionStage1_trace w :
  ∃ es0 tail,
    trace (InstallNewVersionStage1 cmd cls os w).2 = (trace w ++ es0) ++ tail
    ∧ process_launches es0 = 0
    ∧ close_requests es0 = 0
    ∧ process_launches tail ≤ 1
    ∧ close_requests tail ≤ 1.
Proof.
  rewrite InstallNewVersionStage1_after_resolver. cbv zeta.
  destruct (ObtainInstallerPath_quiet os w) as (es0 & Ht0 & Hl0 & Hc0 & _).
  exists es0.
  destruct (ObtainInstallerPath os w) as [[[installer|]| |] w1];
    cbn [snd] in *; [destruct (copy_file_error _ _ _)|..];
    cbn [snd world_after trace]; rewrite Ht0.
  2: destruct (FindWindowW os cls).
  all: eexists; (split_and!; [reflexivity || (symmetry; apply app_nil_r)
                             |done|done|..]);
    count_events; rewrite ?bool_decide_eq_true_2 by done; lia.
Qed.

(** X6.  The calls of Stage 1, however its run ends: it calls neither
    [WaitForSingleObject] nor the MSI service, removes no file and stores
    no record, so the persisted record is as it found it; it makes at most
    one launch, with no process handle asked for, and sends at most one
    close request. *)
Theorem stage1_calls_stay_within_the_handoff (w : World) :
  let run := InstallNewVersionStage1 cmd cls os w in
  ∃ es,
    trace run.2 = trace w ++ es
    ∧ Forall is_stage1_event es
    ∧ (EWaitForSingleObject ∉ es)
    ∧ (∀ s, EStore s ∉ es)
    ∧ (∀ q, ERemove q ∉ es)
    ∧ (∀ q c, EMsiInstallProductW q c ∉ es)
    ∧ persisted run.2 = persisted w
    ∧ process_launches es ≤ 1
    ∧ close_requests es ≤ 1.
Proof.
  intros run. subst run.
  destruct (InstallNewVersionStage1_emits cmd cls os w)
    as (es & Ht & Hes & Hp).
  assert (∀ e, e ∈ es → is_stage1_event e) as Hin.
  { by apply Forall_forall. }
  exists es. split_and!; [done|done|..].
  - intros H. by apply Hin in H.
  - intros s H. by apply Hin in H.
  - intros q H. by apply Hin in H.
  - intros q c H. by apply Hin in H.
  - destruct Hp as [Hp|(s & H & _)]; [done|]. by apply Hin in H.
  - destruct (InstallNewVersionStage1_trace w)
      as (es0 & tail & Ht' & Hl0 & _ & Hl1 & _).
    rewrite Ht, <- app_assoc in Ht'. apply app_inv_head in Ht' as ->.
    unfold process_launches in *. rewrite count_app. lia.
  - destruct (InstallNewVersionStage1_trace w)
      as (es0 & tail & Ht' & _ & Hc0 & _ & Hc1).
    rewrite Ht, <- app_assoc in Ht'. apply app_inv_head in Ht' as ->.
    unfold close_requests in *. rewrite count_app. lia.
Qed.

(** Stage 1 leaves the persisted record alone. *)
Lemma InstallNewVersionStage1_persisted w :
  persisted (InstallNewVersionStage1 cmd cls os w).2 = persisted w.
Proof.
  destruct (InstallNewVersionStage1_emits cmd cls os w)
    as (es & _ & Hes & [Hp|(s & Hin & _)]); [done|].
  rewrite Forall_forall in Hes. by apply Hes in Hin.
Qed.

(** X7.  With the stage-1 token [WinMain] exits with 0 when Stage 1
    returned [true], leaving the persisted record as it was, and with 1
    when Stage 1 returned [false], after storing [errorDownloading] with
    the file name cleared and the time stamp refreshed.  Arguments after
    the token are ignored. *)
Theorem WinMain_stage1_exit_code_and_state (args : list wstring) (w : World) :
  args !! 1 = Some (UPDATE_NOW_LAUNCH_STAGE1 cmd) →
  let stage1 := InstallNewVersionStage1 cmd cls os (log_event ELoggerInit w) in
  let run := WinMain cmd cls os (Some args) w in
  (stage1.1 = Returns true →
   run = (Returns 0%Z, stage1.2) ∧ persisted run.2 = persisted w)
  ∧ (stage1.1 = Returns false →
     run = (Returns 1%Z,
            world_after (error_downloading_at (clock w)) (files stage1.2)
              [EStore (error_downloading_at (clock w))] stage1.2)).
Proof.
  intros Hact stage1 run. subst stage1 run.
  rewrite (WinMain_stage1 cmd cls os args w Hact).
  destruct (InstallNewVersionStage1_steady cmd cls os
              (log_event ELoggerInit w)) as (ok & Hok & Hclock).
  pose proof (InstallNewVersionStage1_persisted (log_event ELoggerInit w))
    as Hp.
  destruct (InstallNewVersionStage1 _ _ _ _) as [o w1]; cbn [fst snd] in *.
  subst o. split_and!.
  - intros [= ->]. done.
  - intros [= ->]. by rewrite Hclock.
Qed.

End Stage1.

(** X4, witness: the self-copy fails. *)
Lemma stage1_gives_up_before_touching_the_host_witness :
  let os := sample_os_offering None true (Some 7%Z) (λ _, true) in
  let w := sample_world (L "Setup.EXE") in
  let run := InstallNewVersionStage1 sample_cmd sample_window_class os w in
  copy_file_error os (get_module_filename os)
    (L "C:\Temp\PowerToys.Update.exe") = true
  ∧ run.1 = Returns false
  ∧ close_requests (trace run.2) = 0
  ∧ process_launches (trace run.2) = 0.
Proof.
  intros os w run.
  destruct (stage1_gives_up_before_touching_the_host sample_cmd
              sample_window_class os w) as (_ & _ & H).
  split; [reflexivity|]. apply H. right. reflexivity.
Defined.

(** X7, witness: nothing is on offer, so Stage 1 fails. *)
Lemma WinMain_stage1_exit_code_and_state_witness :
  let os := sample_os (λ _, true) 0 None None in
  let args := [L "PowerToys.Update.exe"; L "-update_now"] in
  let run :=
    WinMain sample_cmd sample_window_class os (Some args)
      sample_world_to_download in
  args !! 1 = Some (UPDATE_NOW_LAUNCH_STAGE1 sample_cmd)
  ∧ run.1 = Returns 1%Z
  ∧ persisted run.2 = error_downloading_at 2000%Z.
Proof.
  intros os args run.
  assert (args !! 1 = Some (UPDATE_NOW_LAUNCH_STAGE1 sample_cmd)) as Hact
    by reflexivity.
  destruct (WinMain_stage1_exit_code_and_state sample_cmd
              sample_window_class os args sample_world_to_download Hact)
    as (_ & Hfail).
  split_and!; [exact Hact|..].
  - exact (f_equal fst (Hfail eq_refl)).
  - exact (f_equal (λ r, persisted r.2) (Hfail eq_refl)).
Defined.

(** ** Stage 2 *)

Section Stage2Extras.

Variable cmd : cmdArg.
Variable cls : wstring.
Variable os : Env.

Lemma installer_hangs_not_succeeds p :
  installer_hangs os p → ¬ installer_succeeds os p.
Proof.
  unfold installer_hangs, installer_succeeds. cbv zeta.
  intros (-> & _ & H) [_ H']. congruence.
Qed.

Lemma installer_hangs_not_fails p :
  installer_hangs os p → ¬ installer_fails os p.
Proof.
  unfold installer_hangs, installer_fails. cbv zeta.
  intros (-> & H1 & H2) [H|(c & _ & H & _)]; congruence.
Qed.

(** Removing a file leaves the files of other names as they are. *)
Lemma is_regular_file_remove_file_other fs p q :
  same_file q p = false →
  is_regular_file (remove_file fs p) q = is_regular_file fs q.
Proof.
  unfold same_file. intros Hqp%bool_decide_eq_false.
  unfold is_regular_file, remove_file.
  induction fs as [|r fs IH]; [done|].
  cbn [existsb]. destruct (same_file p r) eqn:Hpr.
  - rewrite filter_cons_False by (by rewrite Hpr). rewrite IH.
    unfold same_file in Hpr. apply bool_decide_eq_true in Hpr.
    replace (same_file q r) with false; [done|].
    symmetry. apply bool_decide_eq_false. congruence.
  - rewrite filter_cons_True by done. cbn [existsb]. by rewrite IH.
Qed.

(** X8.  Whenever [WinMain] exits, the exit code is 0 or 1. *)
Theorem WinMain_exit_code_is_0_or_1
    (args : option (list wstring)) (w : World) (code : Z) :
  (WinMain cmd cls os args w).1 = Returns code → code = 0%Z ∨ code = 1%Z.
Proof.
  revert w code.
  change (returns_only (λ code, code = 0%Z ∨ code = 1%Z)
            (WinMain cmd cls os args)).
  unfold WinMain. destruct args as [args|]; [|by apply returns_only_ret; auto].
  cbv zeta. destruct (_ <? _)%nat; [by apply returns_only_ret; auto|].
  apply returns_only_bind. intros action.
  apply returns_only_bind. intros _.
  destruct (bool_decide (action = _)).
  - apply returns_only_bind. intros ok.
    apply returns_only_bind. intros _.
    apply returns_only_ret. destruct ok; auto.
  - destruct (bool_decide (action = _)); [|by apply returns_only_ret; auto].
    do 4 (apply returns_only_bind; intros ?).
    apply returns_only_bind. intros _.
    apply returns_only_ret. by destruct a2; auto.
Qed.

(** X9.  For a stage-2 invocation with all its arguments: the exit code is
    0 exactly when the installer run succeeded and, if a restart was asked
    for, the shell accepted the launch of the host; it is 1 exactly when
    the installer run failed or the asked-for restart was refused.  The
    arguments are never read past their end. *)
Theorem stage2_exit_code_iff (exe p d r : wstring) (rest : list wstring)
    (w : World) :
  UPDATE_NOW_LAUNCH_STAGE2 cmd ≠ UPDATE_NOW_LAUNCH_STAGE1 cmd →
  let run :=
    WinMain cmd cls os
      (Some (exe :: UPDATE_NOW_LAUNCH_STAGE2 cmd :: p :: d :: r :: rest)) w in
  let restart_refused :=
    r = UPDATE_STAGE2_RESTART_PT cmd
    ∧ ShellExecuteExW os (restart_sei cmd d) = false in
  (run.1 = Returns 0%Z ↔ installer_succeeds os p ∧ ¬ restart_refused)
  ∧ (run.1 = Returns 1%Z
     ↔ installer_fails os p ∨ (installer_succeeds os p ∧ restart_refused))
  ∧ run.1 ≠ ReadsPastArgs.
Proof.
  intros Hne run restart_refused. subst run restart_refused.
  rewrite WinMain_stage2 by done.
  destruct (installer_run_cases os p) as [Hok|[Hf|Hh]].
  - pose proof (installer_succeeds_not_fails os p Hok) as Hnf.
    assert (¬ installer_hangs os p) as Hnh.
    { intros Hh. by apply (installer_hangs_not_succeeds p Hh). }
    rewrite (InstallNewVersionStage2_success cmd os p d _ _ Hok).
    destruct (decide (r = UPDATE_STAGE2_RESTART_PT cmd)) as [->|Hr].
    + rewrite bool_decide_eq_true_2 by done.
      destruct (ShellExecuteExW os (restart_sei cmd d)); cbn [fst];
        split_and!; intuition congruence.
    + rewrite bool_decide_eq_false_2 by done. cbn [fst].
      split_and!; intuition congruence.
  - assert (¬ installer_succeeds os p) as Hns.
    { intros Hok. by apply (installer_succeeds_not_fails os p Hok). }
    assert (¬ installer_hangs os p) as Hnh.
    { intros Hh. by apply (installer_hangs_not_fails p Hh). }
    rewrite (InstallNewVersionStage2_failure cmd os p d _ _ Hf). cbn [fst].
    split_and!; intuition congruence.
  - pose proof (installer_hangs_not_succeeds p Hh) as Hns.
    pose proof (installer_hangs_not_fails p Hh) as Hnf.
    rewrite (InstallNewVersionStage2_hang cmd os p d _ _ Hh). cbn [fst].
    split_and!; intuition congruence.
Qed.

End Stage2Extras.

Section Stage2More.

Variable cmd : cmdArg.
Variable cls : wstring.
Variable os : Env.

(** X10.  The wait for the bootstrapper has no timeout: when the
    bootstrapper is launched and never exits, a stage-2 invocation never
    exits either.  It stays in the wait, with the installer file and the
    persisted record as they were and nothing stored. *)
Theorem stage2_waits_for_ever_on_a_hanging_bootstrapper
    (exe p d r : wstring) (rest : list wstring) (w : World) :
  UPDATE_NOW_LAUNCH_STAGE2 cmd ≠ UPDATE_NOW_LAUNCH_STAGE1 cmd →
  installer_hangs os p →
  WinMain cmd cls os
    (Some (exe :: UPDATE_NOW_LAUNCH_STAGE2 cmd :: p :: d :: r :: rest)) w
  = (WaitsForever,
     world_after (persisted w) (files w)
       [ELoggerInit;
        EShellExecuteExW (bootstrapper_sei (transform_towlower p));
        EWaitForSingleObject]
       w).
Proof.
  intros Hne Hh. rewrite WinMain_stage2 by done.
  rewrite (InstallNewVersionStage2_hang cmd os p d _ _ Hh).
  destruct Hh as (Hmsi & Hsh & Hex).
  unfold installer_events. cbv zeta. rewrite Hmsi, Hsh, Hex. world_eq.
Qed.

(** X12.  Stage 2 starts the host again exactly when that was asked for
    and the installer run succeeded; the launch is then the last call of
    Stage 2 and comes right after the store of the up-to-date record. *)
Theorem host_is_restarted_only_after_a_successful_install
    (p d : wstring) (l : bool) (w : World) :
  ∃ es,
    trace (InstallNewVersionStage2 cmd os p d l w).2 = trace w ++ es
    ∧ (EShellExecuteExW (restart_sei cmd d) ∈ es
       ↔ l = true ∧ installer_succeeds os p)
    ∧ (EShellExecuteExW (restart_sei cmd d) ∈ es →
       ∃ before,
         es = before ++ [EStore (up_to_date_at (clock w));
                         EShellExecuteExW (restart_sei cmd d)]).
Proof.
  pose proof (installer_events_no_restart cmd os p d) as Hnone.
  destruct (installer_run_cases os p) as [Hok|[Hf|Hh]].
  - rewrite (InstallNewVersionStage2_success cmd os p d l w Hok).
    eexists. split; [reflexivity|]. destruct l.
    + split_and!.
      * split; [done|]. intros _.
        rewrite !elem_of_app, !elem_of_cons. auto.
      * intros _.
        exists (installer_events os p ++ [ERemove (transform_towlower p)]).
        by rewrite <- app_assoc.
    + assert (EShellExecuteExW (restart_sei cmd d)
              ∉ installer_events os p
                ++ [ERemove (transform_towlower p);
                    EStore (up_to_date_at (clock w))] ++ []) as Hnot
        by not_in_trace Hnone.
      split; [split; [done|by intros [? _]]|done].
  - assert (¬ installer_succeeds os p) as Hns.
    { intros Hok. by apply (installer_succeeds_not_fails os p Hok). }
    rewrite (InstallNewVersionStage2_failure cmd os p d l w Hf).
    eexists. split; [reflexivity|].
    split; [split; [done|by intros [_ ?]]|done].
  - pose proof (installer_hangs_not_succeeds os p Hh) as Hns.
    rewrite (InstallNewVersionStage2_hang cmd os p d l w Hh).
    eexists. split; [reflexivity|].
    split; [split; [done|by intros [_ ?]]|done].
Qed.

(** X13.  Stage 2 does not look at the persisted record: its outcome, its
    calls and what it does to the files are the same whatever record is
    stored when it starts. *)
Theorem stage2_ignores_the_persisted_state
    (p d : wstring) (l : bool) (w : World) (s : UpdateState.t) :
  let run := InstallNewVersionStage2 cmd os p d l w in
  let run' := InstallNewVersionStage2 cmd os p d l (set_persisted s w) in
  run'.1 = run.1 ∧ trace run'.2 = trace run.2 ∧ files run'.2 = files run.2.
Proof.
  intros run run'. subst run run'.
  destruct (installer_run_cases os p) as [Hok|[Hf|Hh]].
  - by rewrite !(InstallNewVersionStage2_success cmd os p d l _ Hok).
  - by rewrite !(InstallNewVersionStage2_failure cmd os p d l _ Hf).
  - by rewrite !(InstallNewVersionStage2_hang cmd os p d l _ Hh).
Qed.

(** X14.  [CopySelfToTempDir] copies the running executable to
    [PowerToys.Update.exe] in the temporary directory.  When the copy
    reports an error it returns nothing and the files are as before; when
    it does not, it returns that path, the copy is a regular file, and
    every file under another name is as before. *)
Theorem CopySelfToTempDir_result (w : World) :
  let src := get_module_filename os in
  let dst :=
    path_append os (temp_directory_path os) (L "PowerToys.Update.exe") in
  let run := CopySelfToTempDir os w in
  trace run.2 = trace w ++ [ECopyFile src dst]
  ∧ persisted run.2 = persisted w
  ∧ (copy_file_error os src dst = true →
     run.1 = Returns None ∧ files run.2 = files w)
  ∧ (copy_file_error os src dst = false →
     run.1 = Returns (Some dst)
     ∧ is_regular_file (files run.2) dst = true
     ∧ ∀ q, same_file q dst = false →
            is_regular_file (files run.2) q = is_regular_file (files w) q).
Proof.
  intros src dst run. subst run. unfold CopySelfToTempDir. unfold_M.
  fold src dst. split_and!.
  - by destruct (copy_file_error os src dst).
  - by destruct (copy_file_error os src dst).
  - by intros ->.
  - intros ->. cbn [fst snd files]. split_and!; [done|..].
    + cbn [is_regular_file existsb]. unfold same_file.
      by rewrite bool_decide_eq_true_2.
    + intros q Hq. cbn [is_regular_file existsb]. rewrite Hq.
      by apply is_regular_file_remove_file_other.
Qed.

End Stage2More.

(** ** What the program removes *)

Section Removal.

Variable cmd : cmdArg.
Variable cls : wstring.
Variable os : Env.

(** A continuation of [args[i]] only runs on an argument that is there. *)
Lemma emits_only_bind_args_at {B} (P : Event → Prop)
    (args : list wstring) (i : nat) (f : wstring → M B) :
  (∀ a, args !! i = Some a → emits_only P (f a)) →
  emits_only P (args_at args i ≫= f).
Proof.
  intros Hf w. unfold mbind, M_bind, args_at.
  destruct (args !! i) as [a|] eqn:Ha.
  - by apply Hf.
  - exists []. cbn [snd]. rewrite app_nil_r. auto.
Qed.

(** Stage 2 removes the lower-cased installer path, and only after a
    successful installer run. *)
Lemma InstallNewVersionStage2_emits (P : Event → Prop) p d l :
  (∀ e, (∀ q, e ≠ ERemove q) → P e) →
  (installer_succeeds os p → P (ERemove (transform_towlower p))) →
  emits_only P (InstallNewVersionStage2 cmd os p d l).
Proof.
  intros Hother Hremove w.
  assert (Forall P (installer_events os p)) as Hevents.
  { apply Forall_forall. intros e He. apply Hother.
    by destruct (installer_events_no_remove_no_store os p e He). }
  destruct (installer_run_cases os p) as [Hok|[Hf|Hh]].
  - rewrite (InstallNewVersionStage2_success cmd os p d l w Hok).
    eexists. split; [reflexivity|]. split.
    + rewrite !Forall_app. split_and!; [done| |].
      * repeat constructor; [by apply Hremove|by apply Hother].
      * destruct l; repeat constructor. by apply Hother.
    + right. eexists. split; [|reflexivity].
      rewrite !elem_of_app, !elem_of_cons. auto.
  - rewrite (InstallNewVersionStage2_failure cmd os p d l w Hf).
    eexists. split; [reflexivity|]. auto.
  - rewrite (InstallNewVersionStage2_hang cmd os p d l w Hh).
    eexists. split; [reflexivity|]. auto.
Qed.

Lemma WinMain_removes_only_the_installer args :
  emits_only (removes_only_the_installer cmd os args)
    (WinMain cmd cls os (Some args)).
Proof.
  unfold WinMain. cbv zeta. destruct (_ <? _)%nat; [emits|].
  apply emits_only_bind_args_at. intros action Hact.
  apply emits_only_bind; [emits; exact I|]. intros _.
  destruct (bool_decide (action = _)).
  - apply emits_only_bind.
    { apply (emits_only_weaken is_stage1_event);
        [|apply InstallNewVersionStage1_emits].
      by intros []. }
    intros ok. emits. intros s w. eexists. by split.
  - destruct (bool_decide (action = _)) eqn:Haction; [|emits].
    apply bool_decide_eq_true in Haction. subst action.
    apply emits_only_bind_args_at. intros p Hp.
    do 2 (apply emits_only_bind; [emits|]; intros ?).
    apply emits_only_bind.
    { apply InstallNewVersionStage2_emits.
      - intros e He. destruct e; try exact I. by destruct (He p0).
      - intros Hok. by exists p. }
    intros ok. emits. intros s w. eexists. by split.
Qed.

(** X15.  The only file the program ever removes is the installer named by
    the stage-2 arguments, and only once that installer's run has
    succeeded: a stage-1 invocation, an unrecognised action or a failed
    install removes nothing. *)
Theorem program_removes_only_the_installed_installer
    (args : list wstring) (w : World) :
  ∃ es,
    trace (WinMain cmd cls os (Some args) w).2 = trace w ++ es
    ∧ ∀ q, ERemove q ∈ es →
           ∃ p, args !! 1 = Some (UPDATE_NOW_LAUNCH_STAGE2 cmd)
                ∧ args !! 2 = Some p
                ∧ q = transform_towlower p
                ∧ installer_succeeds os p.
Proof.
  destruct (WinMain_removes_only_the_installer args w) as (es & Ht & Hes & _).
  exists es. split; [done|]. intros q Hq.
  rewrite Forall_forall in Hes. exact (Hes _ Hq).
Qed.

End Removal.

(** X8, witness: an unrecognised action gives 0. *)
Lemma WinMain_exit_code_is_0_or_1_witness :
  let run :=
    WinMain sample_cmd sample_window_class
      (sample_os (λ _, true) 0 (Some 0%Z) None)
      (Some [L "PowerToys.Update.exe"; L "-update_later"])
      (sample_world (L "Setup.EXE")) in
  run.1 = Returns 0%Z ∧ (0 = 0 ∨ 0 = 1)%Z.
Proof.
  intros run.
  assert (run.1 = Returns 0%Z) as Hrun by reflexivity.
  split; [exact Hrun|].
  exact (WinMain_exit_code_is_0_or_1 sample_cmd sample_window_class _ _ _ 0%Z
           Hrun).
Defined.

(** X9, witness: the bootstrapper succeeds and no restart is asked for. *)
Lemma stage2_exit_code_iff_witness :
  let os := sample_os (λ _, true) 0 (Some 0%Z) None in
  let run :=
    WinMain sample_cmd sample_window_class os
      (Some [L "PowerToys.Update.exe"; L "-update_now_stage_2";
             L "C:\Updates\Setup.EXE"; L "C:\PowerToys"; L "dont_start"])
      (sample_world (L "Setup.EXE")) in
  UPDATE_NOW_LAUNCH_STAGE2 sample_cmd ≠ UPDATE_NOW_LAUNCH_STAGE1 sample_cmd
  ∧ installer_succeeds os (L "C:\Updates\Setup.EXE")
  ∧ run.1 = Returns 0%Z.
Proof.
  intros os run.
  assert (UPDATE_NOW_LAUNCH_STAGE2 sample_cmd
          ≠ UPDATE_NOW_LAUNCH_STAGE1 sample_cmd) as Hne by discriminate.
  assert (installer_succeeds os (L "C:\Updates\Setup.EXE")) as Hok
    by (vm_compute; auto).
  destruct (stage2_exit_code_iff sample_cmd sample_window_class os
              (L "PowerToys.Update.exe") (L "C:\Updates\Setup.EXE")
              (L "C:\PowerToys") (L "dont_start") []
              (sample_world (L "Setup.EXE")) Hne) as ([_ Hzero] & _).
  split_and!; [exact Hne|exact Hok|].
  apply Hzero. split; [exact Hok|]. intros [Hr _]. discriminate Hr.
Defined.

(** X10, witness: the bootstrapper never exits. *)
Lemma stage2_waits_for_ever_on_a_hanging_bootstrapper_witness :
  let os := sample_os (λ _, true) 0 None None in
  let w := sample_world (L "Setup.EXE") in
  let run :=
    WinMain sample_cmd sample_window_class os
      (Some [L "PowerToys.Update.exe"; L "-update_now_stage_2";
             L "C:\Updates\Setup.EXE"; L "C:\PowerToys"; L "restart"]) w in
  UPDATE_NOW_LAUNCH_STAGE2 sample_cmd ≠ UPDATE_NOW_LAUNCH_STAGE1 sample_cmd
  ∧ installer_hangs os (L "C:\Updates\Setup.EXE")
  ∧ run.1 = WaitsForever
  ∧ persisted run.2 = persisted w
  ∧ files run.2 = files w.
Proof.
  intros os w run.
  assert (UPDATE_NOW_LAUNCH_STAGE2 sample_cmd
          ≠ UPDATE_NOW_LAUNCH_STAGE1 sample_cmd) as Hne by discriminate.
  assert (installer_hangs os (L "C:\Updates\Setup.EXE")) as Hh
    by (split_and!; reflexivity).
  pose proof (stage2_waits_for_ever_on_a_hanging_bootstrapper sample_cmd
                sample_window_class os (L "PowerToys.Update.exe")
                (L "C:\Updates\Setup.EXE") (L "C:\PowerToys") (L "restart")
                [] w Hne Hh) as Hrun.
  split_and!; [exact Hne|exact Hh|..].
  - exact (f_equal fst Hrun).
  - exact (f_equal (λ r, persisted r.2) Hrun).
  - exact (f_equal (λ r, files r.2) Hrun).
Defined.


(** ** Exit code and persisted record; download and handoff *)

Section Composition.

Variable cmd : cmdArg.
Variable cls : wstring.
Variable os : Env.

(** X16.  For a stage-2 invocation with all its arguments the exit code
    tells what was persisted last: with exit code 0 the persisted record
    is the up-to-date record, with exit code 1 it is the
    [errorDownloading] record, each with the file name cleared and the
    current time; while the process hangs in the wait the record is the
    one it found. *)
Theorem stage2_exit_code_reflects_persisted_state
    (exe p d r : wstring) (rest : list wstring) (w : World) :
  UPDATE_NOW_LAUNCH_STAGE2 cmd ≠ UPDATE_NOW_LAUNCH_STAGE1 cmd →
  let run :=
    WinMain cmd cls os
      (Some (exe :: UPDATE_NOW_LAUNCH_STAGE2 cmd :: p :: d :: r :: rest)) w in
  (run.1 = Returns 0%Z → persisted run.2 = up_to_date_at (clock w))
  ∧ (run.1 = Returns 1%Z → persisted run.2 = error_downloading_at (clock w))
  ∧ (run.1 = WaitsForever → persisted run.2 = persisted w).
Proof.
  intros Hne run. subst run. rewrite WinMain_stage2 by done.
  destruct (installer_run_cases os p) as [Hok|[Hf|Hh]].
  - rewrite (InstallNewVersionStage2_success cmd os p d _ _ Hok).
    destruct (if bool_decide _ then _ else _); cbn [fst snd];
      split_and!; done.
  - rewrite (InstallNewVersionStage2_failure cmd os p d _ _ Hf).
    cbn [fst snd]. split_and!; done.
  - rewrite (InstallNewVersionStage2_hang cmd os p d _ _ Hh).
    cbn [fst snd]. split_and!; done.
Qed.

(** X17.  Stage 1 from a status that calls for a download: when the
    metadata offers a new version, the download yields a path and the
    self-copy is made, Stage 1 queries, downloads, copies itself, asks the
    host to close if its window exists, and launches the copy with the
    Stage-2 arguments that carry the downloaded path; its result is the
    answer of the shell. *)
Theorem stage1_downloads_then_hands_off
    (info : new_version_download_info) (installer : wstring) (w : World) :
  UpdateState.state (persisted w) = UpdateState.readyToDownload
  ∨ UpdateState.state (persisted w) = UpdateState.errorDownloading →
  get_github_version_info_async os = inr (new_version info) →
  download_new_version os info = Some installer →
  let src := get_module_filename os in
  let dst :=
    path_append os (temp_directory_path os) (L "PowerToys.Update.exe") in
  copy_file_error os src dst = false →
  let window := FindWindowW os cls in
  let sei :=
    stage2_launch_sei dst
      (stage2_arguments cmd os installer (bool_decide (is_Some window))) in
  let run := InstallNewVersionStage1 cmd cls os w in
  run.1 = Returns (ShellExecuteExW os sei)
  ∧ trace run.2
    = trace w
      ++ [EGetGithubVersionInfo; EDownloadNewVersion info; ECopyFile src dst]
      ++ match window with
         | Some hwnd => [ESendMessageW hwnd WM_CLOSE]
         | None => []
         end
      ++ [EShellExecuteExW sei]
  ∧ persisted run.2 = persisted w.
Proof.
  intros Hs Hinfo Hdownload src dst Hcopy window sei run.
  subst run. rewrite InstallNewVersionStage1_after_resolver. cbv zeta.
  unfold ObtainInstallerPath. unfold_M.
  assert (bool_decide
            (UpdateState.state (persisted w) = UpdateState.readyToDownload)
          || bool_decide
               (UpdateState.state (persisted w)
                = UpdateState.errorDownloading) = true) as ->.
  { apply orb_true_iff. rewrite !bool_decide_eq_true. done. }
  rewrite Hinfo. unfold_M. rewrite Hdownload.
  cbn [bool_decide decide_rel is_Some_dec]. unfold_M.
  fold src dst. rewrite Hcopy. fold window. fold sei.
  cbn [fst snd world_after trace persisted].
  split_and!; [done| |done].
  by rewrite <- !app_assoc.
Qed.

End Composition.

(** X16, witness: the bootstrapper exits with 1603. *)
Lemma stage2_exit_code_reflects_persisted_state_witness :
  let os := sample_os (λ _, true) 0 (Some 1603%Z) None in
  let run :=
    WinMain sample_cmd sample_window_class os
      (Some [L "PowerToys.Update.exe"; L "-update_now_stage_2";
             L "C:\Updates\Setup.EXE"; L "C:\PowerToys"; L "restart"])
      (sample_world (L "Setup.EXE")) in
  UPDATE_NOW_LAUNCH_STAGE2 sample_cmd ≠ UPDATE_NOW_LAUNCH_STAGE1 sample_cmd
  ∧ run.1 = Returns 1%Z
  ∧ persisted run.2 = error_downloading_at 2000%Z.
Proof.
  intros os run.
  assert (UPDATE_NOW_LAUNCH_STAGE2 sample_cmd
          ≠ UPDATE_NOW_LAUNCH_STAGE1 sample_cmd) as Hne by discriminate.
  destruct (stage2_exit_code_reflects_persisted_state sample_cmd
              sample_window_class os (L "PowerToys.Update.exe")
              (L "C:\Updates\Setup.EXE") (L "C:\PowerToys") (L "restart") []
              (sample_world (L "Setup.EXE")) Hne) as (_ & Hone & _).
  split_and!; [exact Hne|reflexivity|].
  apply Hone. reflexivity.
Defined.

(** X17, witness: the host is running while the update is fetched. *)
Lemma stage1_downloads_then_hands_off_witness :
  let installer := L "C:\Updates\PowerToysSetup-x64.exe" in
  let os := sample_os_offering (Some installer) false (Some 7%Z) (λ _, true) in
  let w := sample_world_to_download in
  let run := InstallNewVersionStage1 sample_cmd sample_window_class os w in
  (UpdateState.state (persisted w) = UpdateState.readyToDownload
   ∨ UpdateState.state (persisted w) = UpdateState.errorDownloading)
  ∧ get_github_version_info_async os
    = inr (new_version (DownloadInfo (L "PowerToysSetup-x64.exe")))
  ∧ download_new_version os (DownloadInfo (L "PowerToysSetup-x64.exe"))
    = Some installer
  ∧ copy_file_error os (get_module_filename os)
      (L "C:\Temp\PowerToys.Update.exe") = false
  ∧ run.1 = Returns true
  ∧ close_requests (trace run.2) = 1
  ∧ persisted run.2 = persisted w.
Proof.
  intros installer os w run.
  assert (UpdateState.state (persisted w) = UpdateState.readyToDownload
          ∨ UpdateState.state (persisted w) = UpdateState.errorDownloading)
    as Hs by (left; reflexivity).
  destruct (stage1_downloads_then_hands_off sample_cmd sample_window_class
              os (DownloadInfo (L "PowerToysSetup-x64.exe")) installer w
              Hs eq_refl eq_refl eq_refl) as (Hrun & Htrace & Hp).
  split_and!; [exact Hs|reflexivity|reflexivity|reflexivity|exact Hrun| |
               exact Hp].
  subst run. rewrite Htrace. reflexivity.
Defined.
